(** * Voyager pose task and content layer: a shallow embedding

    The development follows two source files of the Voyager explorer:

    - the pose editing task [CVPoseTask] (pointer accumulation in [onPointer],
      the per-frame [tick], active node tracking, task activation), and
    - the custom element [ContentLayer] ([onResize]).

    JavaScript numbers are IEEE 754 binary64 values; they are embedded as
    Rocq's primitive floats, so that every arithmetic expression of the source
    rounds here exactly as it does in the program. *)

From Stdlib Require Import Floats.PrimFloat.
From Stdlib Require Import ZArith Bool List String Lia.
From Stdlib Require Import Reals Lra RNsatz.
Import ListNotations.

Set Warnings "-inexact-float".

Open Scope float_scope.

(** ** JavaScript numbers *)

Abbreviation number := float (only parsing).

(** [Math.sin] and [Math.cos] are implementation-approximated in ECMAScript and
    have no counterpart among the primitive float operations: the embedding is
    parametric in them.  [Math.sqrt] is the correctly rounded IEEE square root
    in every engine and is embedded as [PrimFloat.sqrt]. *)
Class JSMath : Type := {
  Math_sin : number -> number;
  Math_cos : number -> number
}.

Definition Math_sqrt (a : number) : number := PrimFloat.sqrt a.

(** [a > b] on numbers. *)
Definition gtb (a b : number) : bool := b <? a.

(** ** The parts of three.js used by the task

    [THREE.Vector3], [THREE.Quaternion] and [THREE.Matrix4] belong to the
    three.js library the task imports.  The methods the task calls are
    transcribed with the same operation order as their JavaScript bodies
    (a [Matrix4] is its column-major [elements] array, [te0] .. [te15]). *)
Module THREE.

Record Vector3 : Type := mkVector3 { x : number; y : number; z : number }.

Record Quaternion : Type :=
  mkQuaternion { _x : number; _y : number; _z : number; _w : number }.

Record Matrix4 : Type := mkMatrix4 {
  te0 : number; te1 : number; te2 : number; te3 : number;
  te4 : number; te5 : number; te6 : number; te7 : number;
  te8 : number; te9 : number; te10 : number; te11 : number;
  te12 : number; te13 : number; te14 : number; te15 : number
}.

(** [new THREE.Quaternion()] : the identity orientation. *)
Definition Quaternion_identity : Quaternion := mkQuaternion 0 0 0 1.

(** [Vector3.length]. *)
Definition length (v : Vector3) : number :=
  Math_sqrt (x v * x v + y v * y v + z v * z v).

(** [Vector3.applyQuaternion]: [q * v * q^-1], written out. *)
Definition applyQuaternion (v : Vector3) (q : Quaternion) : Vector3 :=
  let qx := _x q in let qy := _y q in let qz := _z q in let qw := _w q in
  let ix := qw * x v + qy * z v - qz * y v in
  let iy := qw * y v + qz * x v - qx * z v in
  let iz := qw * z v + qx * y v - qy * x v in
  let iw := (- qx) * x v - qy * y v - qz * z v in
  mkVector3
    (ix * qw + iw * (- qx) + iy * (- qz) - iz * (- qy))
    (iy * qw + iw * (- qy) + iz * (- qx) - ix * (- qz))
    (iz * qw + iw * (- qz) + ix * (- qy) - iy * (- qx)).

(** [Quaternion.setFromAxisAngle]; the axis is assumed normalized. *)
Definition setFromAxisAngle `{JSMath} (axis : Vector3) (angle : number)
  : Quaternion :=
  let halfAngle := angle / 2 in
  let s := Math_sin halfAngle in
  mkQuaternion (x axis * s) (y axis * s) (z axis * s) (Math_cos halfAngle).

(** [Quaternion.setFromRotationMatrix]: the upper 3x3 of [m] must be a pure
    rotation. *)
Definition setFromRotationMatrix (m : Matrix4) : Quaternion :=
  let m11 := te0 m in let m12 := te4 m in let m13 := te8 m in
  let m21 := te1 m in let m22 := te5 m in let m23 := te9 m in
  let m31 := te2 m in let m32 := te6 m in let m33 := te10 m in
  let trace := m11 + m22 + m33 in
  if gtb trace 0 then
    let s := 0.5 / Math_sqrt (trace + 1) in
    mkQuaternion ((m32 - m23) * s) ((m13 - m31) * s) ((m21 - m12) * s)
                 (0.25 / s)
  else if gtb m11 m22 && gtb m11 m33 then
    let s := 2 * Math_sqrt (1 + m11 - m22 - m33) in
    mkQuaternion (0.25 * s) ((m12 + m21) / s) ((m13 + m31) / s)
                 ((m32 - m23) / s)
  else if gtb m22 m33 then
    let s := 2 * Math_sqrt (1 + m22 - m11 - m33) in
    mkQuaternion ((m12 + m21) / s) (0.25 * s) ((m23 + m32) / s)
                 ((m13 - m31) / s)
  else
    let s := 2 * Math_sqrt (1 + m33 - m11 - m22) in
    mkQuaternion ((m13 + m31) / s) ((m23 + m32) / s) (0.25 * s)
                 ((m21 - m12) / s).

(** [Matrix4.identity]. *)
Definition identity : Matrix4 :=
  mkMatrix4 1 0 0 0  0 1 0 0  0 0 1 0  0 0 0 1.

(** [Matrix4.setPosition]: overwrite the translation column. *)
Definition setPosition (m : Matrix4) (v : Vector3) : Matrix4 :=
  mkMatrix4 (te0 m) (te1 m) (te2 m) (te3 m)
            (te4 m) (te5 m) (te6 m) (te7 m)
            (te8 m) (te9 m) (te10 m) (te11 m)
            (x v) (y v) (z v) (te15 m).

(** [Matrix4.compose]. *)
Definition compose (position : Vector3) (quaternion : Quaternion)
  (scale : Vector3) : Matrix4 :=
  let qx := _x quaternion in let qy := _y quaternion in
  let qz := _z quaternion in let qw := _w quaternion in
  let x2 := qx + qx in let y2 := qy + qy in let z2 := qz + qz in
  let xx := qx * x2 in let xy := qx * y2 in let xz := qx * z2 in
  let yy := qy * y2 in let yz := qy * z2 in let zz := qz * z2 in
  let wx := qw * x2 in let wy := qw * y2 in let wz := qw * z2 in
  let sx := x scale in let sy := y scale in let sz := z scale in
  mkMatrix4
    ((1 - (yy + zz)) * sx) ((xy + wz) * sx) ((xz - wy) * sx) 0
    ((xy - wz) * sy) ((1 - (xx + zz)) * sy) ((yz + wx) * sy) 0
    ((xz + wy) * sz) ((yz - wx) * sz) ((1 - (xx + yy)) * sz) 0
    (x position) (y position) (z position) 1.

(** [Matrix4.makeRotationFromQuaternion]: [compose(zero, q, one)]. *)
Definition makeRotationFromQuaternion (q : Quaternion) : Matrix4 :=
  compose (mkVector3 0 0 0) q (mkVector3 1 1 1).

(** [Matrix4.multiplyMatrices(a, b)]: the product [a x b]. *)
Definition multiplyMatrices (a b : Matrix4) : Matrix4 :=
  let a11 := te0 a in let a12 := te4 a in let a13 := te8 a in
  let a14 := te12 a in
  let a21 := te1 a in let a22 := te5 a in let a23 := te9 a in
  let a24 := te13 a in
  let a31 := te2 a in let a32 := te6 a in let a33 := te10 a in
  let a34 := te14 a in
  let a41 := te3 a in let a42 := te7 a in let a43 := te11 a in
  let a44 := te15 a in
  let b11 := te0 b in let b12 := te4 b in let b13 := te8 b in
  let b14 := te12 b in
  let b21 := te1 b in let b22 := te5 b in let b23 := te9 b in
  let b24 := te13 b in
  let b31 := te2 b in let b32 := te6 b in let b33 := te10 b in
  let b34 := te14 b in
  let b41 := te3 b in let b42 := te7 b in let b43 := te11 b in
  let b44 := te15 b in
  mkMatrix4
    (a11 * b11 + a12 * b21 + a13 * b31 + a14 * b41)
    (a21 * b11 + a22 * b21 + a23 * b31 + a24 * b41)
    (a31 * b11 + a32 * b21 + a33 * b31 + a34 * b41)
    (a41 * b11 + a42 * b21 + a43 * b31 + a44 * b41)
    (a11 * b12 + a12 * b22 + a13 * b32 + a14 * b42)
    (a21 * b12 + a22 * b22 + a23 * b32 + a24 * b42)
    (a31 * b12 + a32 * b22 + a33 * b32 + a34 * b42)
    (a41 * b12 + a42 * b22 + a43 * b32 + a44 * b42)
    (a11 * b13 + a12 * b23 + a13 * b33 + a14 * b43)
    (a21 * b13 + a22 * b23 + a23 * b33 + a24 * b43)
    (a31 * b13 + a32 * b23 + a33 * b33 + a34 * b43)
    (a41 * b13 + a42 * b23 + a43 * b33 + a44 * b43)
    (a11 * b14 + a12 * b24 + a13 * b34 + a14 * b44)
    (a21 * b14 + a22 * b24 + a23 * b34 + a24 * b44)
    (a31 * b14 + a32 * b24 + a33 * b34 + a34 * b44)
    (a41 * b14 + a42 * b24 + a43 * b34 + a44 * b44).

(** [this.multiply(m)] is [this.multiplyMatrices(this, m)]: the receiver
    stays on the left. *)
Definition multiply (this m : Matrix4) : Matrix4 := multiplyMatrices this m.

(** [Matrix4.determinant]. *)
Definition determinant (m : Matrix4) : number :=
  let n11 := te0 m in let n12 := te4 m in let n13 := te8 m in
  let n14 := te12 m in
  let n21 := te1 m in let n22 := te5 m in let n23 := te9 m in
  let n24 := te13 m in
  let n31 := te2 m in let n32 := te6 m in let n33 := te10 m in
  let n34 := te14 m in
  let n41 := te3 m in let n42 := te7 m in let n43 := te11 m in
  let n44 := te15 m in
  n41 * (n14 * n23 * n32 - n13 * n24 * n32 - n14 * n22 * n33
         + n12 * n24 * n33 + n13 * n22 * n34 - n12 * n23 * n34)
  + n42 * (n11 * n23 * n34 - n11 * n24 * n33 + n14 * n21 * n33
           - n13 * n21 * n34 + n13 * n24 * n31 - n14 * n23 * n31)
  + n43 * (n11 * n24 * n32 - n11 * n22 * n34 - n14 * n21 * n32
           + n12 * n21 * n34 + n14 * n22 * n31 - n12 * n24 * n31)
  + n44 * ((- n13) * n22 * n31 - n11 * n23 * n32 + n11 * n22 * n33
           + n13 * n21 * n32 - n12 * n21 * n33 + n12 * n23 * n31).

(** [Matrix4.decompose(position, quaternion, scale)]: the three results as a
    triple.  The scale is the length of each basis column (the first one
    negated under a negative determinant); the quaternion is read off the
    matrix with its columns divided by the scale. *)
Definition decompose (m : Matrix4) : Vector3 * Quaternion * Vector3 :=
  let sx := length (mkVector3 (te0 m) (te1 m) (te2 m)) in
  let sy := length (mkVector3 (te4 m) (te5 m) (te6 m)) in
  let sz := length (mkVector3 (te8 m) (te9 m) (te10 m)) in
  let det := determinant m in
  let sx := if det <? 0 then - sx else sx in
  let position := mkVector3 (te12 m) (te13 m) (te14 m) in
  let invSX := 1 / sx in
  let invSY := 1 / sy in
  let invSZ := 1 / sz in
  let matrix :=
    mkMatrix4 (te0 m * invSX) (te1 m * invSX) (te2 m * invSX) (te3 m)
              (te4 m * invSY) (te5 m * invSY) (te6 m * invSY) (te7 m)
              (te8 m * invSZ) (te9 m * invSZ) (te10 m * invSZ) (te11 m)
              (te12 m) (te13 m) (te14 m) (te15 m) in
  (position, setFromRotationMatrix matrix, mkVector3 sx sy sz).

End THREE.

Import THREE.

(** ** Data model of the pose task *)

(** [export enum EPoseManipMode { Off, Translate, Rotate }] *)
Inductive EPoseManipMode : Type := Off | Translate | Rotate.

Definition EPoseManipMode_eqb (a b : EPoseManipMode) : bool :=
  match a, b with
  | Off, Off | Translate, Translate | Rotate, Rotate => true
  | _, _ => false
  end.

(** The camera of a viewport: the orthographic flag, the orthographic size
    and the world matrix are the three members [tick] reads. *)
Record UniversalCamera : Type := mkCamera {
  isOrthographicCamera : bool;
  size : number;
  matrixWorld : Matrix4
}.

(** A viewport: its camera (possibly [null]) and its height in pixels. *)
Record Viewport : Type := mkViewport {
  camera : option UniversalCamera;
  height : number
}.

Record Object3D : Type := mkObject3D { matrix : Matrix4 }.

(** A model component; [object3D.matrix] is its current local matrix. *)
Record CVModel2 : Type := mkModel { object3D : Object3D }.

(** Models and viewports are objects shared with the scene and the renderer:
    the task only keeps references to them.  A reference is an address in a
    store; every address denotes an object, as every JavaScript reference
    does. *)
Definition ModelRef : Set := nat.
Definition ViewportRef : Set := nat.

Definition store_update {A : Type} (st : nat -> A) (r : nat) (a : A)
  : nat -> A :=
  fun r' => if Nat.eqb r' r then a else st r'.

(** A scene node: [node.model] is the model component of the node, if any. *)
Record NVNode : Type := mkNode { model : option ModelRef }.

(** [EQuadViewLayout]: the two layouts the task switches between. *)
Inductive EQuadViewLayout : Type := Single | Quad.

(** An entry of [renderer.views]: a [RenderQuadView] with its layout, or a
    view of another class. *)
Inductive RenderView : Type :=
| RenderQuadView (layout : EQuadViewLayout)
| OtherView.

(** [IPointerEvent], with the members [onPointer] reads and writes.
    [buttons] is [event.originalEvent.buttons]. *)
Record IPointerEvent : Type := mkPointerEvent {
  type : string;
  buttons : Z;
  ctrlKey : bool;
  shiftKey : bool;
  movementX : number;
  movementY : number;
  viewport : option ViewportRef;
  stopPropagation : bool
}.

(** The callbacks registered with the system-wide publisher: the task's own
    [onPointer], or a handler of some other component. *)
Inductive Handler : Type := PoseTask_onPointer | Foreign (id : nat).

Definition Handler_eqb (a b : Handler) : bool :=
  match a, b with
  | PoseTask_onPointer, PoseTask_onPointer => true
  | Foreign i, Foreign j => Nat.eqb i j
  | _, _ => false
  end.

(** The fields of a [CVPoseTask] instance.  [isActiveTask] and [observing]
    belong to the base class [CVTask]. *)
Record CVPoseTask : Type := mkTask {
  isActiveTask : bool;
  observing : bool;
  ins_mode : EPoseManipMode;
  outs_size : Vector3;
  _viewport : option ViewportRef;
  _deltaX : number;
  _deltaY : number;
  activeModel : option ModelRef
}.

(** The task together with the objects it shares with the application. *)
Record World : Type := mkWorld {
  task : CVPoseTask;
  models : ModelRef -> CVModel2;
  viewports : ViewportRef -> Viewport;
  renderer_views : list RenderView;
  subscribers : list (string * Handler);
  selection : option ModelRef;
  console : list string
}.

(** Field updates. *)
Definition set_task (w : World) (t : CVPoseTask) : World :=
  mkWorld t (models w) (viewports w) (renderer_views w) (subscribers w)
          (selection w) (console w).

Definition set_models (w : World) (ms : ModelRef -> CVModel2) : World :=
  mkWorld (task w) ms (viewports w) (renderer_views w) (subscribers w)
          (selection w) (console w).

Definition set_renderer_views (w : World) (vs : list RenderView) : World :=
  mkWorld (task w) (models w) (viewports w) vs (subscribers w)
          (selection w) (console w).

Definition set_subscribers (w : World) (ss : list (string * Handler))
  : World :=
  mkWorld (task w) (models w) (viewports w) (renderer_views w) ss
          (selection w) (console w).

Definition set_selection (w : World) (sel : option ModelRef) : World :=
  mkWorld (task w) (models w) (viewports w) (renderer_views w)
          (subscribers w) sel (console w).

Definition console_log (w : World) (msg : string) : World :=
  mkWorld (task w) (models w) (viewports w) (renderer_views w)
          (subscribers w) (selection w) (console w ++ [msg]).

Definition set_isActiveTask (t : CVPoseTask) (b : bool) : CVPoseTask :=
  mkTask b (observing t) (ins_mode t) (outs_size t) (_viewport t)
         (_deltaX t) (_deltaY t) (activeModel t).

Definition set_observing (t : CVPoseTask) (b : bool) : CVPoseTask :=
  mkTask (isActiveTask t) b (ins_mode t) (outs_size t) (_viewport t)
         (_deltaX t) (_deltaY t) (activeModel t).

Definition set_ins_mode (t : CVPoseTask) (m : EPoseManipMode) : CVPoseTask :=
  mkTask (isActiveTask t) (observing t) m (outs_size t) (_viewport t)
         (_deltaX t) (_deltaY t) (activeModel t).

Definition set_outs_size (t : CVPoseTask) (v : Vector3) : CVPoseTask :=
  mkTask (isActiveTask t) (observing t) (ins_mode t) v (_viewport t)
         (_deltaX t) (_deltaY t) (activeModel t).

Definition set_delta (t : CVPoseTask) (dx dy : number) : CVPoseTask :=
  mkTask (isActiveTask t) (observing t) (ins_mode t) (outs_size t)
         (_viewport t) dx dy (activeModel t).

Definition set_viewport (t : CVPoseTask) (v : option ViewportRef)
  : CVPoseTask :=
  mkTask (isActiveTask t) (observing t) (ins_mode t) (outs_size t) v
         (_deltaX t) (_deltaY t) (activeModel t).

Definition set_activeModel (t : CVPoseTask) (m : option ModelRef)
  : CVPoseTask :=
  mkTask (isActiveTask t) (observing t) (ins_mode t) (outs_size t)
         (_viewport t) (_deltaX t) (_deltaY t) m.

(** The outcome of a method call: it returns a value, or a [TypeError] is
    thrown on a member access through [null]; either way the state reached is
    kept. *)
Inductive completion (S A : Type) : Type :=
| Return (a : A) (s : S)
| Throw (s : S).

Arguments Return {S A} a s.
Arguments Throw {S A} s.

(** The methods of [CVModel2] and of the bounding box helper that the task
    calls but whose bodies lie outside the two files: [setFromMatrix] takes
    the composed matrix and the model and gives the model with that pose;
    [boundingBoxSize] is the size of the box enclosing the object hierarchy
    ([makeEmpty], [expandByObject], [getSize]). *)
Class ModelAPI : Type := {
  setFromMatrix : Matrix4 -> CVModel2 -> CVModel2;
  boundingBoxSize : Object3D -> Vector3
}.

(** ** The collaborators of the task

    The publisher behind [this.system], the base class [CVTask] and the
    selection service live outside the two files. *)

(** Modelled from the spec: [system.on(types, callback, context)] is the
    "system-wide pub/sub for pointer ... notifications"; subscribing adds the
    callback to the subscribers of each of the given event types. *)
Definition system_on (types : list string) (h : Handler)
  (subs : list (string * Handler)) : list (string * Handler) :=
  subs ++ map (fun t => (t, h)) types.

(** Modelled from the spec: [system.off(types, callback, context)]
    "unsubscribes": no subscription of the callback to one of the given event
    types remains. *)
Definition system_off (types : list string) (h : Handler)
  (subs : list (string * Handler)) : list (string * Handler) :=
  filter (fun s => negb (existsb (String.eqb (fst s)) types
                         && Handler_eqb (snd s) h)) subs.

(** Modelled from the spec: [CVTask.activateTask] and
    [CVTask.deactivateTask], the base class methods reached through [super];
    "while active" is the flag [isActiveTask] that [tick] tests. *)
Definition super_activateTask (w : World) : World :=
  set_task w (set_isActiveTask (task w) true).

Definition super_deactivateTask (w : World) : World :=
  set_task w (set_isActiveTask (task w) false).

(** Modelled from the spec: [startObserving] and [stopObserving] switch the
    "active-node/active-document change notifications" on and off. *)
Definition startObserving (w : World) : World :=
  set_task w (set_observing (task w) true).

Definition stopObserving (w : World) : World :=
  set_task w (set_observing (task w) false).

(** Modelled from the spec: [selection.selectComponent] "select[s] it in the
    scene's selection state". *)
Definition selectComponent (w : World) (m : ModelRef) : World :=
  set_selection w (Some m).

(** The event types the task listens to. *)
Definition pointerEventTypes : list string :=
  ["pointer-down"; "pointer-up"; "pointer-move"]%string.

Definition set_stopPropagation (e : IPointerEvent) (b : bool)
  : IPointerEvent :=
  mkPointerEvent (type e) (buttons e) (ctrlKey e) (shiftKey e)
                 (movementX e) (movementY e) (viewport e) b.

Definition isSome {A : Type} (o : option A) : bool :=
  match o with Some _ => true | None => false end.

(** ** The methods of [CVPoseTask] *)

(** [set layout] on every [RenderQuadView] of [renderer.views]. *)
Definition setQuadLayouts (l : EQuadViewLayout) (views : list RenderView)
  : list RenderView :=
  map (fun view => match view with
                   | RenderQuadView _ => RenderQuadView l
                   | OtherView => OtherView
                   end) views.

(** [activateTask()] *)
Definition activateTask (w : World) : World :=
  (* start listening to pointer events *)
  let w := set_subscribers w
             (system_on pointerEventTypes PoseTask_onPointer (subscribers w)) in
  (* switch to quad view layout *)
  let w := set_renderer_views w (setQuadLayouts Quad (renderer_views w)) in
  (* start observing active node and active document changes *)
  let w := startObserving w in
  super_activateTask w.

(** [deactivateTask()] *)
Definition deactivateTask (w : World) : World :=
  let w := super_deactivateTask w in
  (* stop observing active node and active document changes *)
  let w := stopObserving w in
  (* switch back to single view layout *)
  let w := set_renderer_views w (setQuadLayouts Single (renderer_views w)) in
  (* stop listening to pointer events *)
  set_subscribers w
    (system_off pointerEventTypes PoseTask_onPointer (subscribers w)).

(** [tick()].  The module-level scratch objects [_vec3a], [_axis], [_mat4],
    [_quat0] and [_quat1] are written before they are read in every call, so
    they are local bindings here.  The result is the returned boolean with the
    state reached; reading [camera] through a [null] viewport, or [object3D]
    through a [null] model, throws. *)
Definition tick `{JSMath} `{ModelAPI} (w : World) : completion World bool :=
  let this := task w in
  if negb (isActiveTask this) then Return false w else
  let mode := ins_mode this in
  if EPoseManipMode_eqb mode Off || negb (isSome (activeModel this)) then
    Return false w
  else
  let deltaX := _deltaX this in
  let deltaY := _deltaY this in
  if (deltaX =? 0) && (deltaY =? 0) then Return false w else
  let this := set_delta this 0 0 in
  let w := set_task w this in
  match _viewport this with
  | None => Throw w
  | Some vp =>
    match camera (viewports w vp) with
    | None => Return false w
    | Some cam =>
      if negb (isOrthographicCamera cam) then Return false w else
      let _quat0 := snd (fst (decompose (matrixWorld cam))) in
      let _mat4 :=
        if EPoseManipMode_eqb mode Rotate then
          (* convert accumulated pointer movement to rotation angle *)
          let angle := (deltaX - deltaY) * 0.002 in
          (* generate rotation matrix *)
          let _axis := applyQuaternion (mkVector3 0 0 (-1)) _quat0 in
          let _quat1 := setFromAxisAngle _axis angle in
          makeRotationFromQuaternion _quat1
        else
          (* pointer movement to world scale, translation matrix *)
          let f := size cam / height (viewports w vp) in
          let _axis :=
            applyQuaternion (mkVector3 (deltaX * f) ((- deltaY) * f) 0)
                            _quat0 in
          setPosition identity _axis in
      (* multiply delta transform with current model pose transform *)
      match activeModel this with
      | None => Throw w
      | Some m =>
        let _mat4 := multiply _mat4 (matrix (object3D (models w m))) in
        Return true
          (set_models w
             (store_update (models w) m (setFromMatrix _mat4 (models w m))))
      end
    end
  end.

(** [onModelBoundingBox()] *)
Definition onModelBoundingBox `{ModelAPI} (w : World) : World :=
  let w :=
    match activeModel (task w) with
    | Some m =>
      set_task w (set_outs_size (task w)
                    (boundingBoxSize (object3D (models w m))))
    | None => w
    end in
  console_log w "on bounding box".

(** [onActiveNode(previous, next)]; [next && next.model] is the model of
    [next] when there is a node and it has one. *)
Definition onActiveNode `{ModelAPI} (previous next : option NVNode)
  (w : World) : World :=
  let next_model := match next with
                    | Some n => model n
                    | None => None
                    end in
  let w := set_task w (set_activeModel (task w) next_model) in
  match activeModel (task w) with
  | Some m => onModelBoundingBox (selectComponent w m)
  | None => w
  end.

(** [onPointer(event)]: the event object is mutated, so it is returned with
    the state. *)
Definition onPointer (event : IPointerEvent) (w : World)
  : IPointerEvent * World :=
  let this := task w in
  if EPoseManipMode_eqb (ins_mode this) Off
     || negb (isSome (activeModel this)) then (event, w)
  else
  (* check pointer events if left button is down *)
  if (buttons event =? 1)%Z then
    if String.eqb (type event) "pointer-move" then
      (* speed multiplier according to modifier keys (ctrl = 0.1, shift = 10) *)
      let speed := if ctrlKey event then 0.1
                   else if shiftKey event then 10 else 1 in
      (* accumulate motion in deltaX/deltaY *)
      let this := set_delta this (_deltaX this + movementX event * speed)
                                 (_deltaY this + movementY event * speed) in
      let this := set_viewport this (viewport event) in
      (* mark event as handled *)
      (set_stopPropagation event true, set_task w this)
    else (event, w)
  else (event, w).

(** Modelled from the spec: publishing a pointer notification calls, in
    subscription order, every callback subscribed to the type of the event.
    Handlers of other components act outside the state modelled here. *)
Definition system_emit (event : IPointerEvent) (w : World)
  : IPointerEvent * World :=
  fold_left
    (fun (ew : IPointerEvent * World) (s : string * Handler) =>
       if String.eqb (fst s) (type (fst ew)) then
         match snd s with
         | PoseTask_onPointer => onPointer (fst ew) (snd ew)
         | Foreign _ => ew
         end
       else ew)
    (subscribers w) (event, w).

(** The state reached by a completion. *)
Definition state_of {S A : Type} (c : completion S A) : S :=
  match c with Return _ s => s | Throw s => s end.

(** What can happen to the task between two changes of the active node: a
    frame tick, a published pointer event, a change of the mode input, an
    activation or deactivation, a bounding box notification. *)
Inductive Action : Type :=
| ATick
| AEmit (event : IPointerEvent)
| ASetMode (mode : EPoseManipMode)
| AActivate
| ADeactivate
| ABoundingBox.

Definition step `{JSMath} `{ModelAPI} (a : Action) (w : World) : World :=
  match a with
  | ATick => state_of (tick w)
  | AEmit e => snd (system_emit e w)
  | ASetMode m => set_task w (set_ins_mode (task w) m)
  | AActivate => activateTask w
  | ADeactivate => deactivateTask w
  | ABoundingBox => onModelBoundingBox w
  end.

Definition run `{JSMath} `{ModelAPI} (acts : list Action) (w : World)
  : World :=
  fold_left (fun w a => step a w) acts w.

(** Feeding a sequence of pointer events to [onPointer], one after the
    other; the events are returned as the handler left them. *)
Fixpoint onPointer_all (events : list IPointerEvent) (w : World)
  : list IPointerEvent * World :=
  match events with
  | [] => ([], w)
  | e :: rest =>
    let ew := onPointer e w in
    let r := onPointer_all rest (snd ew) in
    (fst ew :: fst r, snd r)
  end.

(** The speed multiplier of an event, as the spec words it: 0.1 with Ctrl,
    10 with Shift, 1 otherwise. *)
Definition speedMultiplier (e : IPointerEvent) : number :=
  if ctrlKey e then 0.1 else if shiftKey e then 10 else 1.

(** A move event with exactly the primary button held. *)
Definition primaryMove (e : IPointerEvent) : bool :=
  (buttons e =? 1)%Z && String.eqb (type e) "pointer-move".

(** The sums of [movementX * speed] and [movementY * speed] over the primary
    button moves of an event sequence, added in event order onto [acc]. *)
Definition sumMovementX (acc : number) (events : list IPointerEvent)
  : number :=
  fold_left (fun a e => a + movementX e * speedMultiplier e)
            (filter primaryMove events) acc.

Definition sumMovementY (acc : number) (events : list IPointerEvent)
  : number :=
  fold_left (fun a e => a + movementY e * speedMultiplier e)
            (filter primaryMove events) acc.

(** The accumulated delta is non-zero: the negation of the test
    [deltaX === 0 && deltaY === 0]. *)
Definition deltaNonZero (t : CVPoseTask) : bool :=
  negb ((_deltaX t =? 0) && (_deltaY t =? 0)).

(** The delta transforms, as the spec names them: the rotation built from an
    axis and an angle, and the translation by a vector. *)
Definition rotationAxisAngle `{JSMath} (axis : Vector3) (angle : number)
  : Matrix4 :=
  makeRotationFromQuaternion (setFromAxisAngle axis angle).

Definition translationBy (v : Vector3) : Matrix4 :=
  mkMatrix4 1 0 0 0  0 1 0 0  0 0 1 0  (x v) (y v) (z v) 1.

(** The world orientation of a camera: the quaternion of its decomposed
    world matrix. *)
Definition worldOrientation (cam : UniversalCamera) : Quaternion :=
  snd (fst (decompose (matrixWorld cam))).

(** ** The content layer *)
Module ContentLayer.

(** The canvas, with the two measured dimensions (DOM [long] values). *)
Record HTMLCanvasElement : Type := mkCanvas {
  clientWidth : Z;
  clientHeight : Z
}.

(** The [CustomEvent] dispatched on resize, with its [detail]. *)
Record IResizeEvent : Type := mkResizeEvent {
  event_type : string;
  detail_width : Z;
  detail_height : Z
}.

(** The calls the element makes on its collaborators. *)
Inductive Call : Type :=
| view_resize (width height : Z)
| dispatchEvent (e : IResizeEvent).

(** The element: its canvas and view (both [null] until created) and the
    calls made so far. *)
Record State : Type := mkState {
  canvas : option HTMLCanvasElement;
  view : option nat;
  calls : list Call
}.

Definition resizeEvent : string := "sv-resize".

Definition call (s : State) (c : Call) : State :=
  mkState (canvas s) (view s) (calls s ++ [c]).

(** [onResize()]; measuring through a [null] canvas throws. *)
Definition onResize (s : State) : completion State unit :=
  match canvas s with
  | None => Throw s
  | Some c =>
    let width := clientWidth c in
    let height := clientHeight c in
    let s := match view s with
             | Some _ => call s (view_resize width height)
             | None => s
             end in
    Return tt (call s (dispatchEvent (mkResizeEvent resizeEvent width height)))
  end.

End ContentLayer.

(** ** The vocabulary of the spec *)

(** The delta transform of a frame (spec, 4.1): in Rotate mode the rotation
    by [(deltaX - deltaY) * 0.002] about the camera's local -Z axis taken to
    world space; otherwise the translation by [(deltaX*f, -deltaY*f, 0)] taken
    to world space, with [f] the orthographic size over the viewport height. *)
Definition deltaTransform `{JSMath} (mode : EPoseManipMode)
  (deltaX deltaY : number) (cam : UniversalCamera) (viewportHeight : number)
  : Matrix4 :=
  match mode with
  | Rotate =>
    rotationAxisAngle
      (applyQuaternion (mkVector3 0 0 (-1)) (worldOrientation cam))
      ((deltaX - deltaY) * 0.002)
  | _ =>
    let f := size cam / viewportHeight in
    translationBy
      (applyQuaternion (mkVector3 (deltaX * f) ((- deltaY) * f) 0)
                       (worldOrientation cam))
  end.

(** The state after the accumulated delta has been drained. *)
Definition drained (w : World) : World :=
  set_task w (set_delta (task w) 0 0).

(** The state after a pose edit: the delta is drained and the model behind
    [m] has been given the pose [pose]. *)
Definition posed `{ModelAPI} (w : World) (m : ModelRef) (pose : Matrix4)
  : World :=
  set_models (drained w)
    (store_update (models w) m (setFromMatrix pose (models w m))).

(** The guards of [tick], as one proposition. *)
Definition tickGuards (w : World) (m : ModelRef) : Prop :=
  isActiveTask (task w) = true /\ ins_mode (task w) <> Off /\
  activeModel (task w) = Some m /\ deltaNonZero (task w) = true.

(** A frame tick, or the publication of a pointer-down, pointer-up or
    pointer-move event. *)
Definition tickOrPointerEvent (a : Action) : Prop :=
  match a with
  | ATick => True
  | AEmit e => In (type e) pointerEventTypes
  | _ => False
  end.

(** ** Quaternion rotations, over any numbers

    The arithmetic of [applyQuaternion], [setFromAxisAngle] and
    [makeRotationFromQuaternion], written once over an arbitrary number type:
    read over binary64 it is what the program computes, read over the real
    numbers it is what the formulas mean. *)

Class Arith (N : Type) : Type := {
  ar_add : N -> N -> N;
  ar_sub : N -> N -> N;
  ar_mul : N -> N -> N;
  ar_opp : N -> N;
  ar_zero : N;
  ar_one : N
}.

Declare Scope arith_scope.
Delimit Scope arith_scope with A.
Notation "a + b" := (ar_add a b) : arith_scope.
Notation "a - b" := (ar_sub a b) : arith_scope.
Notation "a * b" := (ar_mul a b) : arith_scope.
Notation "- a" := (ar_opp a) : arith_scope.

Record Vec3 (N : Type) : Type := mkVec3 { vx : N; vy : N; vz : N }.

Record Quat (N : Type) : Type := mkQuat { qx : N; qy : N; qz : N; qw : N }.

Record Mat4 (N : Type) : Type := mkMat4 {
  m0 : N; m1 : N; m2 : N; m3 : N;
  m4 : N; m5 : N; m6 : N; m7 : N;
  m8 : N; m9 : N; m10 : N; m11 : N;
  m12 : N; m13 : N; m14 : N; m15 : N
}.

Arguments mkVec3 {N} _ _ _.
Arguments vx {N} _.
Arguments vy {N} _.
Arguments vz {N} _.
Arguments mkQuat {N} _ _ _ _.
Arguments qx {N} _.
Arguments qy {N} _.
Arguments qz {N} _.
Arguments qw {N} _.
Arguments mkMat4 {N} _ _ _ _ _ _ _ _ _ _ _ _ _ _ _ _.
Arguments m0 {N} _.
Arguments m1 {N} _.
Arguments m2 {N} _.
Arguments m3 {N} _.
Arguments m4 {N} _.
Arguments m5 {N} _.
Arguments m6 {N} _.
Arguments m7 {N} _.
Arguments m8 {N} _.
Arguments m9 {N} _.
Arguments m10 {N} _.
Arguments m11 {N} _.
Arguments m12 {N} _.
Arguments m13 {N} _.
Arguments m14 {N} _.
Arguments m15 {N} _.

(** The vector [v] rotated by the quaternion [q]: the product [q v q*]. *)
Definition quaternionRotate {N : Type} `{Arith N} (v : Vec3 N) (q : Quat N)
  : Vec3 N :=
  (let ix := qw q * vx v + qy q * vz v - qz q * vy v in
   let iy := qw q * vy v + qz q * vx v - qx q * vz v in
   let iz := qw q * vz v + qx q * vy v - qy q * vx v in
   let iw := (- qx q) * vx v - qy q * vy v - qz q * vz v in
   mkVec3
     (ix * qw q + iw * (- qx q) + iy * (- qz q) - iz * (- qy q))
     (iy * qw q + iw * (- qy q) + iz * (- qx q) - ix * (- qz q))
     (iz * qw q + iw * (- qz q) + ix * (- qy q) - iy * (- qx q)))%A.

(** The quaternion of the turn about the axis [a] whose half angle has sine
    [s] and cosine [c]. *)
Definition axisAngleQuaternion {N : Type} `{Arith N} (a : Vec3 N) (s c : N)
  : Quat N :=
  (mkQuat (vx a * s) (vy a * s) (vz a * s) c)%A.

(** The matrix of a quaternion (column by column, without translation and
    with unit scale). *)
Definition quaternionMatrix {N : Type} `{Arith N} (q : Quat N) : Mat4 N :=
  (let x2 := qx q + qx q in
   let y2 := qy q + qy q in
   let z2 := qz q + qz q in
   let xx := qx q * x2 in let xy := qx q * y2 in let xz := qx q * z2 in
   let yy := qy q * y2 in let yz := qy q * z2 in let zz := qz q * z2 in
   let wx := qw q * x2 in let wy := qw q * y2 in let wz := qw q * z2 in
   mkMat4
     ((ar_one - (yy + zz)) * ar_one) ((xy + wz) * ar_one)
     ((xz - wy) * ar_one) ar_zero
     ((xy - wz) * ar_one) ((ar_one - (xx + zz)) * ar_one)
     ((yz + wx) * ar_one) ar_zero
     ((xz + wy) * ar_one) ((yz - wx) * ar_one)
     ((ar_one - (xx + yy)) * ar_one) ar_zero
     ar_zero ar_zero ar_zero ar_one)%A.

Definition axisAngleMatrix {N : Type} `{Arith N} (a : Vec3 N) (s c : N)
  : Mat4 N :=
  quaternionMatrix (axisAngleQuaternion a s c).

(** The linear part of a matrix applied to a vector, and the scalar product. *)
Definition matVec {N : Type} `{Arith N} (m : Mat4 N) (v : Vec3 N) : Vec3 N :=
  (mkVec3 (m0 m * vx v + m4 m * vy v + m8 m * vz v)
          (m1 m * vx v + m5 m * vy v + m9 m * vz v)
          (m2 m * vx v + m6 m * vy v + m10 m * vz v))%A.

Definition dot {N : Type} `{Arith N} (u v : Vec3 N) : N :=
  (vx u * vx v + vy u * vy v + vz u * vz v)%A.

(** The camera's local -Z axis. *)
Definition minusZ {N : Type} `{Arith N} : Vec3 N :=
  mkVec3 ar_zero ar_zero (ar_opp ar_one).

(** Binary64 arithmetic, as the program runs it. *)
#[export] Instance floatArith : Arith float := {|
  ar_add := PrimFloat.add;
  ar_sub := PrimFloat.sub;
  ar_mul := PrimFloat.mul;
  ar_opp := PrimFloat.opp;
  ar_zero := 0%float;
  ar_one := 1%float
|}.

(** Real arithmetic. *)
#[export] Instance realArith : Arith R := {|
  ar_add := Rplus;
  ar_sub := Rminus;
  ar_mul := Rmult;
  ar_opp := Ropp;
  ar_zero := 0%R;
  ar_one := 1%R
|}.

Definition ofVector3 (v : Vector3) : Vec3 float := mkVec3 (x v) (y v) (z v).

Definition toVector3 (v : Vec3 float) : Vector3 :=
  mkVector3 (vx v) (vy v) (vz v).

Definition ofQuaternion (q : Quaternion) : Quat float :=
  mkQuat (_x q) (_y q) (_z q) (_w q).

Definition toMatrix4 (m : Mat4 float) : Matrix4 :=
  mkMatrix4 (m0 m) (m1 m) (m2 m) (m3 m)
            (m4 m) (m5 m) (m6 m) (m7 m)
            (m8 m) (m9 m) (m10 m) (m11 m)
            (m12 m) (m13 m) (m14 m) (m15 m).

(** A unit quaternion, over the reals. *)
Definition unitQuaternion (q : Quat R) : Prop :=
  (qx q * qx q + qy q * qy q + qz q * qz q + qw q * qw q = 1)%R.

(** The rotation of angle [theta] about the unit axis [a], over the reals
    (Rodrigues' formula: [cos theta I + sin theta [a]x + (1 - cos theta) a a^T]),
    column by column. *)
Definition rodrigues (a : Vec3 R) (theta : R) : Mat4 R :=
  (let c := cos theta in
   let s := sin theta in
   mkMat4
     (c + vx a * vx a * (1 - c))
     (vy a * vx a * (1 - c) + vz a * s)
     (vz a * vx a * (1 - c) - vy a * s)
     0
     (vx a * vy a * (1 - c) - vz a * s)
     (c + vy a * vy a * (1 - c))
     (vz a * vy a * (1 - c) + vx a * s)
     0
     (vx a * vz a * (1 - c) + vy a * s)
     (vy a * vz a * (1 - c) - vx a * s)
     (c + vz a * vz a * (1 - c))
     0
     0 0 0 1)%R.

(** The squared length of a column of the linear part of a matrix. *)
Definition squaredLength (v : Vector3) : number :=
  x v * x v + y v * y v + z v * z v.

Definition column1 (m : Matrix4) : Vector3 :=
  mkVector3 (te0 m) (te1 m) (te2 m).

(** ** The task over time *)

(** Everything that can happen to the task: one of the steps above, or a
    change of the active node. *)
Inductive PoseAction : Type :=
| PStep (a : Action)
| PActiveNode (previous next : option NVNode).

Definition poseStep `{JSMath} `{ModelAPI} (a : PoseAction) (w : World)
  : World :=
  match a with
  | PStep a => step a w
  | PActiveNode previous next => onActiveNode previous next w
  end.

Definition poseRun `{JSMath} `{ModelAPI} (acts : list PoseAction) (w : World)
  : World :=
  fold_left (fun w a => poseStep a w) acts w.

(** A published pointer event names the viewport it comes from. *)
Definition carriesViewport (a : PoseAction) : Prop :=
  match a with
  | PStep (AEmit e) => viewport e <> None
  | _ => True
  end.

(** A pending delta comes with the viewport it was measured in. *)
Definition viewportKnown (w : World) : Prop :=
  deltaNonZero (task w) = true -> _viewport (task w) <> None.

(** ** The content layer as a custom element

    The lifecycle methods of [ContentLayer] around [onResize].  The browser
    side is kept to what the methods use: whether the bound [onResize] is
    registered for the [resize] event of [window] (a listener registered
    twice is registered once), the event types of the listeners the element
    registers on itself, and the views constructed and disposed so far. *)
Module ContentLayerElement.

(** The element: the part [onResize] works on ([canvas], [view] and the
    calls it makes), the overlay and splitter of [firstConnected], the
    listeners added by the constructor, [manipTarget.next], the window
    listener, and the views constructed (by number) and disposed. *)
Record Element : Type := mkElement {
  layer : ContentLayer.State;
  overlay : bool;
  splitter : bool;
  listeners : list string;
  manipTarget_next : option nat;
  resizeListener : bool;
  constructed : nat;
  disposed : list nat
}.

Definition set_layer (el : Element) (s : ContentLayer.State) : Element :=
  mkElement s (overlay el) (splitter el) (listeners el) (manipTarget_next el)
            (resizeListener el) (constructed el) (disposed el).

(** [constructor(system)]: nothing is created yet; the five input listeners
    forward to the manipulation target. *)
Definition constructor : Element :=
  mkElement (ContentLayer.mkState None None [])
            false false
            ["pointerdown"; "pointermove"; "pointerup"; "pointercancel";
             "wheel"]%string
            None false 0 [].

(** [firstConnected()]: the canvas (as the browser lays it out), the overlay
    and the splitter are created. *)
Definition firstConnected (c : ContentLayer.HTMLCanvasElement) (el : Element)
  : Element :=
  mkElement (ContentLayer.mkState (Some c) (ContentLayer.view (layer el))
                                  (ContentLayer.calls (layer el)))
            true true (listeners el) (manipTarget_next el)
            (resizeListener el) (constructed el) (disposed el).

(** [connected()]: a new view, the manipulation target pointed at it, the
    window listener, and a first [onResize]. *)
Definition connected (el : Element) : completion Element unit :=
  let v := constructed el in
  let el :=
    mkElement (ContentLayer.mkState (ContentLayer.canvas (layer el)) (Some v)
                                    (ContentLayer.calls (layer el)))
              (overlay el) (splitter el) (listeners el)
              (Some v) true (S v) (disposed el) in
  match ContentLayer.onResize (layer el) with
  | Return _ s => Return tt (set_layer el s)
  | Throw s => Throw (set_layer el s)
  end.

(** [disconnected()]: the view is disposed and forgotten, the manipulation
    target points nowhere, the window listener is removed; [this.view.dispose()]
    throws when there is no view. *)
Definition disconnected (el : Element) : completion Element unit :=
  match ContentLayer.view (layer el) with
  | None => Throw el
  | Some v =>
    Return tt
      (mkElement (ContentLayer.mkState (ContentLayer.canvas (layer el)) None
                                       (ContentLayer.calls (layer el)))
                 (overlay el) (splitter el) (listeners el)
                 None false (constructed el) (v :: disposed el))
  end.

(** The window is resized: the browser lays the canvas out anew (with the
    measures [c]) and calls the listeners of [resize]. *)
Definition windowResize (c : ContentLayer.HTMLCanvasElement) (el : Element)
  : completion Element unit :=
  let el :=
    match ContentLayer.canvas (layer el) with
    | Some _ =>
      set_layer el (ContentLayer.mkState (Some c)
                      (ContentLayer.view (layer el))
                      (ContentLayer.calls (layer el)))
    | None => el
    end in
  if resizeListener el then
    match ContentLayer.onResize (layer el) with
    | Return _ s => Return tt (set_layer el s)
    | Throw s => Throw (set_layer el s)
    end
  else Return tt el.

(** What happens to an element. *)
Inductive Lifecycle : Type :=
| FirstConnected (c : ContentLayer.HTMLCanvasElement)
| Connected
| Disconnected
| WindowResize (c : ContentLayer.HTMLCanvasElement).

Definition lifecycleStep (a : Lifecycle) (el : Element) : Element :=
  match a with
  | FirstConnected c => firstConnected c el
  | Connected => state_of (connected el)
  | Disconnected => state_of (disconnected el)
  | WindowResize c => state_of (windowResize c el)
  end.

Definition lifecycleRun (acts : list Lifecycle) (el : Element) : Element :=
  fold_left (fun el a => lifecycleStep a el) acts el.

(** The wiring the lifecycle methods keep: input goes to the view there is,
    the window listener is registered exactly while there is a view, the
    view there is has been constructed and not disposed, and only
    constructed views have been disposed. *)
Definition wired (el : Element) : Prop :=
  manipTarget_next el = ContentLayer.view (layer el) /\
  resizeListener el = isSome (ContentLayer.view (layer el)) /\
  (forall v, ContentLayer.view (layer el) = Some v ->
             (v < constructed el)%nat /\ ~ In v (disposed el)) /\
  (forall v, In v (disposed el) -> (v < constructed el)%nat).

(** The ['sv-resize'] events among the calls made. *)
Definition dispatched (s : ContentLayer.State) : list ContentLayer.IResizeEvent :=
  flat_map (fun c => match c with
                     | ContentLayer.dispatchEvent e => [e]
                     | ContentLayer.view_resize _ _ => []
                     end) (ContentLayer.calls s).

End ContentLayerElement.

(** ** Sample data, to run the model on concrete inputs *)

(** A host whose sine and cosine are the first terms of their series. *)
Definition seriesMath : JSMath := {|
  Math_sin := fun a => a - a * a * a / 6;
  Math_cos := fun a => 1 - a * a / 2
|}.

(** Modelled from the spec: [CVModel2.setFromMatrix] "[w]rite[s] the
    resulting matrix back as the model's pose"; the sample models carry no
    geometry, so their bounding box is empty. *)
Definition poseAPI : ModelAPI := {|
  setFromMatrix := fun pose _ => mkModel (mkObject3D pose);
  boundingBoxSize := fun _ => mkVector3 0 0 0
|}.

Definition orthoCamera : UniversalCamera := mkCamera true 10 identity.

Definition perspectiveCamera : UniversalCamera := mkCamera false 10 identity.

(** A model sitting at (2, 3, 4), turned a quarter about the Y axis. *)
Definition sampleModel : CVModel2 :=
  mkModel (mkObject3D (mkMatrix4 0 0 (-1) 0  0 1 0 0  1 0 0 0  2 3 4 1)).

Definition sampleTask (mode : EPoseManipMode) (dx dy : number)
  (vp : option ViewportRef) (m : option ModelRef) : CVPoseTask :=
  mkTask true true mode (mkVector3 0 0 0) vp dx dy m.

(** An activated task in quad layout, with one model and one viewport of
    height 500 looking through [cam]. *)
Definition sampleWorld (cam : option UniversalCamera) (mode : EPoseManipMode)
  (dx dy : number) : World :=
  mkWorld (sampleTask mode dx dy (Some 0%nat) (Some 0%nat))
          (fun _ => sampleModel)
          (fun _ => mkViewport cam 500)
          [RenderQuadView Quad; OtherView]
          (("wheel"%string, Foreign 7)
             :: system_on pointerEventTypes PoseTask_onPointer [])
          None [].

Definition moveEvent (mx my : number) (ctrl shift : bool) : IPointerEvent :=
  mkPointerEvent "pointer-move" 1 ctrl shift mx my (Some 0%nat) false.

(** A host whose sine and cosine are accurate to the last digits on the
    angles used below (their series up to the terms in [a^17] and [a^16]). *)
Definition polyMath : JSMath := {|
  Math_sin := fun a =>
    let a2 := a * a in
    a * (1 - a2 / 6 * (1 - a2 / 20 * (1 - a2 / 42 * (1 - a2 / 72 *
        (1 - a2 / 110 * (1 - a2 / 156 * (1 - a2 / 210 * (1 - a2 / 272))))))));
  Math_cos := fun a =>
    let a2 := a * a in
    1 - a2 / 2 * (1 - a2 / 12 * (1 - a2 / 30 * (1 - a2 / 56 * (1 - a2 / 90 *
        (1 - a2 / 132 * (1 - a2 / 182 * (1 - a2 / 240)))))))
|}.

(** An orthographic camera at (5, 6, 7), turned a quarter about the Y axis:
    it looks along the world's -X axis and its right hand is the world's
    -Z axis. *)
Definition turnedCamera : UniversalCamera :=
  mkCamera true 10 (mkMatrix4 0 0 (-1) 0  0 1 0 0  1 0 0 0  5 6 7 1).

(** An orthographic camera whose world matrix is sheared (its Y column
    leans along X), as under a parent scaled unevenly. *)
Definition shearedCamera : UniversalCamera :=
  mkCamera true 10 (mkMatrix4 1 0 0 0  1 1 0 0  0 0 1 0  0 0 0 1).

(** A drag: four moves with the primary button held (plain, with Ctrl, with
    Shift, with both), a pointer-down and a move with another button. *)
Definition sampleDrag : list IPointerEvent :=
  [ moveEvent 5 3 false false;
    mkPointerEvent "pointer-down" 1 false false 9 9 (Some 1%nat) false;
    moveEvent 2 1 true false;
    mkPointerEvent "pointer-move" 2 false false 9 9 (Some 1%nat) false;
    moveEvent 1 1 false true;
    moveEvent 1 (-1) true true ].

(** A world around a task in a given state: one model, viewports of height
    500 looking through [cam], a quad view in Single layout, nobody
    subscribed. *)
Definition worldAround (t : CVPoseTask) (cam : option UniversalCamera)
  : World :=
  mkWorld t (fun _ => sampleModel) (fun _ => mkViewport cam 500)
          [RenderQuadView Single; OtherView] [] None [].

(** The task as its field initialisers leave it: mode Off, no viewport, a
    zero delta, no active model. *)
Definition newTask : CVPoseTask :=
  mkTask false false Off (mkVector3 0 0 0) None 0 0 None.

(** A session: the task is activated, a node with a model becomes active,
    the mode is set to Rotate, a drag and two ticks follow, then the node
    loses focus during a second drag. *)
Definition sampleSession : list PoseAction :=
  [ PStep AActivate;
    PActiveNode None (Some (mkNode (Some 0%nat)));
    PStep (ASetMode Rotate);
    PStep (AEmit (moveEvent 5 3 false false));
    PStep ATick;
    PStep ATick;
    PStep (AEmit (moveEvent 2 1 true false));
    PActiveNode (Some (mkNode (Some 0%nat))) None;
    PStep ABoundingBox;
    PStep ADeactivate ].

(** ** Properties *)

(** *** Quaternion rotations over the reals *)

(** Rotating by a unit quaternion keeps lengths. *)
Lemma quaternionRotate_isometry (q : Quat R) (v : Vec3 R) :
  unitQuaternion q ->
  dot (quaternionRotate v q) (quaternionRotate v q) = dot v v.
Proof.
  destruct q as [a b c d], v as [vx vy vz].
  unfold unitQuaternion, dot, quaternionRotate. cbn. intros Hq. nsatz.
Qed.

(** Rotating by a unit quaternion is applying its matrix. *)
Lemma quaternionRotate_matrix (q : Quat R) (v : Vec3 R) :
  unitQuaternion q ->
  quaternionRotate v q = matVec (quaternionMatrix q) v.
Proof.
  destruct q as [a b c d], v as [vx vy vz].
  unfold unitQuaternion, matVec, quaternionMatrix, quaternionRotate. cbn.
  intros Hq. f_equal; nsatz.
Qed.

(** About a unit axis, the matrix of the axis-angle quaternion is the
    rotation of Rodrigues' formula. *)
Lemma axisAngleMatrix_rodrigues (a : Vec3 R) (theta : R) :
  dot a a = 1%R ->
  axisAngleMatrix a (sin (theta / 2)) (cos (theta / 2)) = rodrigues a theta.
Proof.
  destruct a as [ax ay az].
  unfold dot, axisAngleMatrix, axisAngleQuaternion, quaternionMatrix,
    rodrigues. cbn. intros Ha.
  assert (sin theta = 2 * sin (theta / 2) * cos (theta / 2))%R as Hs
    by (rewrite <- sin_2a; f_equal; lra).
  assert (cos theta = 1 - 2 * sin (theta / 2) * sin (theta / 2))%R as Hc
    by (rewrite <- cos_2a_sin; f_equal; lra).
  rewrite Hs, Hc.
  generalize (sin (theta / 2)) as s, (cos (theta / 2)) as c. intros s c.
  f_equal; nsatz.
Qed.

(** Rodrigues' matrix about a unit axis leaves the axis in place and keeps
    lengths. *)
Lemma rodrigues_rotation (a : Vec3 R) (theta : R) :
  dot a a = 1%R ->
  matVec (rodrigues a theta) a = a /\
  forall v, dot (matVec (rodrigues a theta) v) (matVec (rodrigues a theta) v)
            = dot v v.
Proof.
  destruct a as [ax ay az]. unfold dot, matVec, rodrigues. cbn. intros Ha.
  pose proof (sin2_cos2 theta) as Hsc. unfold Rsqr in Hsc.
  revert Hsc. generalize (sin theta) as s, (cos theta) as c. intros s c Hsc.
  split.
  - f_equal; nsatz.
  - intros [vx vy vz]. cbn. nsatz.
Qed.

Section PoseTask.

Context {jsMath : JSMath} {modelAPI : ModelAPI}.

Lemma setPosition_identity (v : Vector3) :
  setPosition identity v = translationBy v.
Proof. reflexivity. Qed.

(** Every way a tick can end.  Either a guard fails and nothing happens at
    all, or the delta is drained and then: the viewport is missing (a
    [TypeError]), the camera is missing or not orthographic (nothing else
    happens), or the pose of the active model is edited. *)
Lemma tick_cases (w : World) :
  ((isActiveTask (task w) = false \/ ins_mode (task w) = Off \/
    activeModel (task w) = None \/ deltaNonZero (task w) = false) /\
   tick w = Return false w) \/
  (isActiveTask (task w) = true /\ ins_mode (task w) <> Off /\
   deltaNonZero (task w) = true /\
   exists m, activeModel (task w) = Some m /\
   ((_viewport (task w) = None /\ tick w = Throw (drained w)) \/
    (exists vp, _viewport (task w) = Some vp /\
       ((camera (viewports w vp) = None \/
         exists cam, camera (viewports w vp) = Some cam /\
                     isOrthographicCamera cam = false) /\
        tick w = Return false (drained w) \/
        exists cam, camera (viewports w vp) = Some cam /\
          isOrthographicCamera cam = true /\
          tick w = Return true
            (posed w m
               (multiply
                  (deltaTransform (ins_mode (task w)) (_deltaX (task w))
                     (_deltaY (task w)) cam (height (viewports w vp)))
                  (matrix (object3D (models w m))))))))).
Proof.
  destruct w as [t ms vs rv ss sel con].
  destruct t as [act obs mode osz vp dx dy am].
  unfold tick, deltaNonZero, posed, drained; cbn [task isActiveTask ins_mode
    activeModel _deltaX _deltaY _viewport set_task set_delta models viewports].
  destruct act; cbn [negb]; [ | left; auto ].
  destruct mode; cbn [EPoseManipMode_eqb orb]; [ left; auto | | ];
    (destruct am as [m | ]; cbn [isSome negb]; [ | left; auto ]);
    (destruct ((dx =? 0) && (dy =? 0)) eqn:Hz; [ left; auto 6 | ]);
    right; (repeat split; [ discriminate | ]); exists m; (split; [ reflexivity | ]);
    (destruct vp as [vp | ]; [ right; exists vp; split; [ reflexivity | ] | now left ]);
    (destruct (camera (vs vp)) as [cam | ] eqn:Hc;
       [ | left; split; [ now left | reflexivity ] ]);
    (destruct (isOrthographicCamera cam) eqn:Ho; cbn [negb];
       [ right; exists cam; repeat split; assumption || reflexivity
       | left; split; [ right; exists cam; now split | reflexivity ] ]).
Qed.

Lemma tick_guards_pass (w : World) (m : ModelRef) :
  tickGuards w m ->
  (_viewport (task w) = None /\ tick w = Throw (drained w)) \/
  (exists vp, _viewport (task w) = Some vp /\
     ((camera (viewports w vp) = None \/
       exists cam, camera (viewports w vp) = Some cam /\
                   isOrthographicCamera cam = false) /\
      tick w = Return false (drained w) \/
      exists cam, camera (viewports w vp) = Some cam /\
        isOrthographicCamera cam = true /\
        tick w = Return true
          (posed w m
             (multiply
                (deltaTransform (ins_mode (task w)) (_deltaX (task w))
                   (_deltaY (task w)) cam (height (viewports w vp)))
                (matrix (object3D (models w m))))))).
Proof.
  intros (Ha & Hm & Hmod & Hd).
  destruct (tick_cases w) as [[Hg _] | (_ & _ & _ & m' & Hm' & Hrest)].
  - destruct Hg as [Hg | [Hg | [Hg | Hg]]]; congruence.
  - rewrite Hmod in Hm'; injection Hm' as <-. exact Hrest.
Qed.

(** With an orthographic camera behind the recorded viewport, a tick whose
    guards pass edits the pose. *)
Lemma tick_edits (w : World) (m : ModelRef) (vp : ViewportRef)
  (cam : UniversalCamera) :
  tickGuards w m ->
  _viewport (task w) = Some vp ->
  camera (viewports w vp) = Some cam ->
  isOrthographicCamera cam = true ->
  tick w = Return true
    (posed w m
       (multiply
          (deltaTransform (ins_mode (task w)) (_deltaX (task w))
             (_deltaY (task w)) cam (height (viewports w vp)))
          (matrix (object3D (models w m))))).
Proof.
  intros Hg Hv Hc Ho.
  destruct (tick_guards_pass w m Hg)
    as [[Hn _] | (vp' & Hv' & [[Hbad _] | (cam' & Hc' & _ & Ht)])].
  - congruence.
  - assert (vp' = vp) as -> by congruence.
    destruct Hbad as [Hbad | (cam' & Hc' & Ho')]; congruence.
  - assert (vp' = vp) as -> by congruence.
    assert (cam' = cam) as -> by congruence. exact Ht.
Qed.

(** Without a usable camera the tick only drains the delta. *)
Lemma tick_discards (w : World) (m : ModelRef) (vp : ViewportRef) :
  tickGuards w m ->
  _viewport (task w) = Some vp ->
  (camera (viewports w vp) = None \/
   exists cam, camera (viewports w vp) = Some cam /\
               isOrthographicCamera cam = false) ->
  tick w = Return false (drained w).
Proof.
  intros Hg Hv Hbad.
  destruct (tick_guards_pass w m Hg)
    as [[Hn _] | (vp' & Hv' & [[_ Ht] | (cam' & Hc' & Ho' & _)])].
  - congruence.
  - exact Ht.
  - assert (vp' = vp) as -> by congruence.
    destruct Hbad as [Hbad | (cam & Hc & Ho)]; congruence.
Qed.

(** A tick that finds the delta at zero does nothing. *)
Lemma tick_zero_delta (w : World) :
  _deltaX (task w) = 0 -> _deltaY (task w) = 0 -> tick w = Return false w.
Proof.
  intros Hx Hy.
  destruct (tick_cases w) as [[_ Ht] | (_ & _ & Hd & _)]; [ exact Ht | ].
  unfold deltaNonZero in Hd. rewrite Hx, Hy in Hd. discriminate Hd.
Qed.

(** Whatever the outcome, a tick leaves the delta drained once its guards
    pass, and touches no model unless it returns [true]. *)
Lemma tick_outcome (w : World) :
  (tick w = Return false w \/ tick w = Return false (drained w) \/
   tick w = Throw (drained w)) \/
  exists m pose, tick w = Return true (posed w m pose).
Proof.
  destruct (tick_cases w) as [[_ Ht] | (_ & _ & _ & m & _ & Hrest)];
    [ auto | ].
  destruct Hrest as [[_ Ht] | (vp & _ & [[_ Ht] | (cam & _ & _ & Ht)])];
    eauto 6.
Qed.

(** *** The delta transform of a frame *)

(** The guards follow from the hypotheses at hand. *)
Ltac guards_pass :=
  unfold tickGuards; repeat split; auto; congruence.

(** What the program computes is the binary64 reading of the formulas. *)
Lemma applyQuaternion_formula (v : Vector3) (q : Quaternion) :
  applyQuaternion v q
  = toVector3 (quaternionRotate (ofVector3 v) (ofQuaternion q)).
Proof. reflexivity. Qed.

Lemma rotationAxisAngle_formula (axis : Vector3) (angle : number) :
  rotationAxisAngle axis angle
  = toMatrix4 (axisAngleMatrix (ofVector3 axis) (Math_sin (angle / 2))
                               (Math_cos (angle / 2))).
Proof. reflexivity. Qed.



(** C3: whenever a tick applies a pose edit, the matrix handed to
    [setFromMatrix] as the new pose of the active model is the product
    [delta x local], the delta transform on the left of the model's current
    local matrix [object3D.matrix]; no other model is touched. *)
Theorem tick_premultiplies_delta (w w' : World) :
  tick w = Return true w' ->
  exists m vp cam,
    activeModel (task w) = Some m /\
    _viewport (task w) = Some vp /\
    camera (viewports w vp) = Some cam /\
    let delta := deltaTransform (ins_mode (task w)) (_deltaX (task w))
                   (_deltaY (task w)) cam (height (viewports w vp)) in
    let local := matrix (object3D (models w m)) in
    models w' m = setFromMatrix (multiplyMatrices delta local) (models w m) /\
    forall m', m' <> m -> models w' m' = models w m'.
Proof.
  intros Ht.
  destruct (tick_cases w) as [[_ Hf] | (_ & _ & _ & m & Hm & Hrest)];
    [ congruence | ].
  destruct Hrest as [[_ Hf] | (vp & Hv & [[_ Hf] | (cam & Hc & _ & He)])];
    try congruence.
  exists m, vp, cam. repeat split; auto.
  - rewrite He in Ht. injection Ht as <-.
    unfold posed, store_update; cbn [models set_models].
    now rewrite Nat.eqb_refl.
  - intros m' Hne. rewrite He in Ht. injection Ht as <-.
    unfold posed, store_update; cbn [models set_models].
    apply Nat.eqb_neq in Hne. now rewrite Hne.
Qed.

(** C5: a tick modifies a model only when the task is active, the mode is
    not Off, an active model exists, the accumulated delta is non-zero and
    the camera of the recorded viewport exists and is orthographic; once the
    guards pass the delta is zero in the state reached, whatever the
    outcome; and right after an applied edit a second tick returns [false]
    and changes nothing. *)
Theorem tick_invariant (w : World) :
  (models (state_of (tick w)) = models w \/
   (isActiveTask (task w) = true /\ ins_mode (task w) <> Off /\
    (exists m, activeModel (task w) = Some m) /\
    deltaNonZero (task w) = true /\
    exists vp cam, _viewport (task w) = Some vp /\
                   camera (viewports w vp) = Some cam /\
                   isOrthographicCamera cam = true)) /\
  (isActiveTask (task w) = true -> ins_mode (task w) <> Off ->
   activeModel (task w) <> None -> deltaNonZero (task w) = true ->
   _deltaX (task (state_of (tick w))) = 0 /\
   _deltaY (task (state_of (tick w))) = 0) /\
  (forall w', tick w = Return true w' ->
   _deltaX (task w') = 0 /\ _deltaY (task w') = 0 /\
   tick w' = Return false w').
Proof.
  split; [ | split ].
  - destruct (tick_cases w) as [[_ Hf] | (Ha & Hmode & Hd & m & Hm & Hrest)].
    + left. now rewrite Hf.
    + destruct Hrest as [[_ Hf] | (vp & Hv & [[_ Hf] | (cam & Hc & Ho & _)])].
      * left. now rewrite Hf.
      * left. now rewrite Hf.
      * right. repeat split; eauto.
  - intros Ha Hmode Hm Hd.
    destruct (tick_cases w) as [[Hg _] | (_ & _ & _ & m & _ & Hrest)].
    + destruct Hg as [Hg | [Hg | [Hg | Hg]]]; congruence.
    + destruct Hrest as [[_ Hf] | (vp & _ & [[_ Hf] | (cam & _ & _ & Hf)])];
        rewrite Hf; split; reflexivity.
  - intros w' Ht.
    destruct (tick_outcome w) as [[Hf | [Hf | Hf]] | (m & pose & He)];
      try congruence.
    rewrite He in Ht. injection Ht as <-.
    repeat split. now apply tick_zero_delta.
Qed.

(** C10: when the guards pass but the camera of the recorded viewport is
    null or not orthographic, the tick returns [false] with the delta reset
    to zero and every model as it was: the pointer input is discarded. *)
Theorem tick_discards_delta (w : World) (m : ModelRef) (vp : ViewportRef) :
  isActiveTask (task w) = true ->
  ins_mode (task w) <> Off ->
  activeModel (task w) = Some m ->
  deltaNonZero (task w) = true ->
  _viewport (task w) = Some vp ->
  (camera (viewports w vp) = None \/
   exists cam, camera (viewports w vp) = Some cam /\
               isOrthographicCamera cam = false) ->
  exists w', tick w = Return false w' /\
    _deltaX (task w') = 0 /\ _deltaY (task w') = 0 /\
    models w' = models w /\
    w' = set_task w (set_delta (task w) 0 0).
Proof.
  intros Ha Hmode Hm Hd Hv Hbad.
  exists (drained w). split.
  - apply (tick_discards w m vp); auto. guards_pass.
  - repeat split.
Qed.

(** *** Pointer events *)

(** One call of [onPointer] while the tool is enabled: a move with the
    primary button held is accumulated, its viewport recorded and the event
    marked; any other event is ignored. *)
Lemma onPointer_enabled (e : IPointerEvent) (w : World) :
  ins_mode (task w) <> Off -> activeModel (task w) <> None ->
  onPointer e w =
  if primaryMove e then
    (set_stopPropagation e true,
     set_task w
       (set_viewport
          (set_delta (task w)
             (_deltaX (task w) + movementX e * speedMultiplier e)
             (_deltaY (task w) + movementY e * speedMultiplier e))
          (viewport e)))
  else (e, w).
Proof.
  intros Hmode Hm. unfold onPointer, primaryMove, speedMultiplier.
  destruct (ins_mode (task w)); [ congruence | | ];
    (destruct (activeModel (task w)); [ | congruence ]);
    cbn [EPoseManipMode_eqb isSome negb orb];
    destruct (buttons e =? 1)%Z;
    destruct (String.eqb (type e) "pointer-move"); reflexivity.
Qed.

(** [onPointer] never changes the mode, the active model, the models, the
    views or the subscriptions. *)
Lemma onPointer_frame (e : IPointerEvent) (w : World) :
  let w' := snd (onPointer e w) in
  ins_mode (task w') = ins_mode (task w) /\
  activeModel (task w') = activeModel (task w) /\
  isActiveTask (task w') = isActiveTask (task w) /\
  models w' = models w /\
  renderer_views w' = renderer_views w /\
  subscribers w' = subscribers w.
Proof.
  unfold onPointer.
  destruct (EPoseManipMode_eqb (ins_mode (task w)) Off
            || negb (isSome (activeModel (task w))));
    [ cbn; auto 6 | ].
  destruct (buttons e =? 1)%Z; [ | cbn; auto 6 ].
  destruct (String.eqb (type e) "pointer-move"); cbn; auto 6.
Qed.

(** The first test of [onPointer]. *)
Lemma onPointer_guard (w : World) :
  ins_mode (task w) = Off \/ activeModel (task w) = None ->
  EPoseManipMode_eqb (ins_mode (task w)) Off
  || negb (isSome (activeModel (task w))) = true.
Proof.
  intros [-> | ->]; [ reflexivity | apply orb_true_r ].
Qed.

(** C9: while the mode is Off or no active model exists, [onPointer] returns
    at once: the event (its [stopPropagation] flag included) and the whole
    state (the accumulated delta and the recorded viewport included) are
    what they were. *)
Theorem onPointer_gated (event : IPointerEvent) (w : World) :
  ins_mode (task w) = Off \/ activeModel (task w) = None ->
  onPointer event w = (event, w) /\
  _deltaX (task (snd (onPointer event w))) = _deltaX (task w) /\
  _deltaY (task (snd (onPointer event w))) = _deltaY (task w) /\
  _viewport (task (snd (onPointer event w))) = _viewport (task w) /\
  stopPropagation (fst (onPointer event w)) = stopPropagation event.
Proof.
  intros Hg.
  assert (onPointer event w = (event, w)) as Heq
    by (unfold onPointer; now rewrite (onPointer_guard w Hg)).
  rewrite Heq. repeat split.
Qed.

(** C4 (amended): while the mode is not Off and an active model exists, a
    sequence of pointer events leaves as accumulated delta the delta it
    found plus, added in event order, [movementX * speed] and
    [movementY * speed] of every move event with the buttons mask equal to
    1, where speed is 0.1 with Ctrl, else 10 with Shift, else 1; each such
    event gets [stopPropagation] set and its viewport is the recorded one
    until the next such event; no other event is touched. *)
Theorem onPointer_accumulates (events : list IPointerEvent) (w : World) :
  ins_mode (task w) <> Off -> activeModel (task w) <> None ->
  let r := onPointer_all events w in
  _deltaX (task (snd r)) = sumMovementX (_deltaX (task w)) events /\
  _deltaY (task (snd r)) = sumMovementY (_deltaY (task w)) events /\
  _viewport (task (snd r)) =
    fold_left (fun _ e => viewport e) (filter primaryMove events)
              (_viewport (task w)) /\
  fst r = map (fun e => if primaryMove e then set_stopPropagation e true
                        else e) events.
Proof.
  revert w. induction events as [ | e rest IH]; intros w Hmode Hm.
  - cbn. auto.
  - cbn [onPointer_all].
    pose proof (onPointer_frame e w) as (Fmode & Fm & _).
    cbn zeta in Fmode, Fm.
    specialize (IH (snd (onPointer e w))).
    rewrite Fmode, Fm in IH. specialize (IH Hmode Hm).
    cbn zeta in IH. destruct IH as (IHx & IHy & IHv & IHe).
    cbn [fst snd map]. rewrite IHx, IHy, IHv, IHe.
    rewrite (onPointer_enabled e w Hmode Hm).
    unfold sumMovementX, sumMovementY. cbn [filter].
    destruct (primaryMove e); cbn; auto.
Qed.

(** Publishing an event calls nothing of the task when the task is not
    subscribed to its type. *)
Lemma emit_unsubscribed (e : IPointerEvent) (w : World) :
  (forall s, In s (subscribers w) -> fst s = type e ->
             snd s <> PoseTask_onPointer) ->
  system_emit e w = (e, w).
Proof.
  unfold system_emit. generalize (subscribers w) as subs.
  induction subs as [ | s subs IH]; intros Hs; [ reflexivity | ].
  cbn [fold_left fst snd].
  destruct (String.eqb (fst s) (type e)) eqn:Heq.
  - apply String.eqb_eq in Heq.
    destruct (snd s) eqn:Hh.
    + exfalso. apply (Hs s); auto. now left.
    + apply IH. intros s' Hin. apply Hs. now right.
  - apply IH. intros s' Hin. apply Hs. now right.
Qed.

(** Publishing an event changes nothing when [onPointer] is gated. *)
Lemma emit_gated (e : IPointerEvent) (w : World) :
  ins_mode (task w) = Off \/ activeModel (task w) = None ->
  system_emit e w = (e, w).
Proof.
  intros Hg. unfold system_emit. generalize (subscribers w) as subs.
  induction subs as [ | s subs IH]; [ reflexivity | ].
  cbn [fold_left fst snd].
  destruct (String.eqb (fst s) (type e)); [ | exact IH ].
  destruct (snd s); [ | exact IH ].
  unfold onPointer. now rewrite (onPointer_guard w Hg).
Qed.

(** *** Active node *)

(** Without an active model no step of the task changes a model, and the
    active model stays null until the active node changes. *)
Lemma step_without_model (a : Action) (w : World) :
  activeModel (task w) = None ->
  activeModel (task (step a w)) = None /\ models (step a w) = models w.
Proof.
  intros Hnone. destruct a; cbn [step].
  - destruct (tick_cases w) as [[_ Hf] | (_ & _ & _ & m & Hm & _)];
      [ | congruence ].
    rewrite Hf. cbn. auto.
  - rewrite emit_gated by auto. cbn. auto.
  - cbn. auto.
  - cbn. auto.
  - cbn. auto.
  - unfold onModelBoundingBox. rewrite Hnone. cbn. auto.
Qed.

Lemma run_without_model (acts : list Action) (w : World) :
  activeModel (task w) = None ->
  activeModel (task (run acts w)) = None /\ models (run acts w) = models w.
Proof.
  revert w. induction acts as [ | a acts IH]; intros w Hnone; [ now cbn | ].
  destruct (step_without_model a w Hnone) as [Hn Hms].
  destruct (IH (step a w) Hn) as [Hn' Hms'].
  unfold run in *. cbn [fold_left]. split; congruence.
Qed.

(** C6: when the active node changes to null or to a node without a model,
    the active model becomes null; from then on, whatever ticks, pointer
    events, mode changes, activations and bounding box notifications follow,
    the active model stays null, no model is modified, and a tick returns
    [false] without throwing and without changing the state. *)
Theorem onActiveNode_without_model (previous next : option NVNode)
  (w : World) (acts : list Action) :
  next = None \/ (exists n, next = Some n /\ model n = None) ->
  let w1 := onActiveNode previous next w in
  activeModel (task w1) = None /\
  models w1 = models w /\
  let w2 := run acts w1 in
  activeModel (task w2) = None /\
  models w2 = models w /\
  tick w2 = Return false w2.
Proof.
  intros Hnext w1.
  assert (activeModel (task w1) = None /\ models w1 = models w) as [Hn Hms].
  { subst w1. unfold onActiveNode.
    destruct Hnext as [-> | (n & -> & ->)]; cbn; auto. }
  repeat split; auto.
  - now apply run_without_model.
  - destruct (run_without_model acts w1 Hn) as [_ Hr]. congruence.
  - destruct (run_without_model acts w1 Hn) as [Hn2 _].
    destruct (tick_cases (run acts w1))
      as [[_ Hf] | (_ & _ & _ & m & Hm & _)]; [ exact Hf | congruence ].
Qed.

(** *** Activation and deactivation *)

Lemma setQuadLayouts_all (l l' : EQuadViewLayout) (views : list RenderView) :
  In (RenderQuadView l') (setQuadLayouts l views) -> l' = l.
Proof.
  unfold setQuadLayouts. rewrite in_map_iff.
  intros ([l0 | ] & Heq & _); congruence.
Qed.

Lemma system_off_unsubscribed (types : list string) (h : Handler)
  (subs : list (string * Handler)) (t : string) :
  In t types -> ~ In (t, h) (system_off types h subs).
Proof.
  intros Ht Hin. unfold system_off in Hin.
  apply filter_In in Hin as [_ Hkeep]. cbn [fst snd] in Hkeep.
  assert (existsb (String.eqb t) types = true) as He
    by (apply existsb_exists; exists t; split; [ exact Ht | apply String.eqb_refl ]).
  assert (Handler_eqb h h = true) as Hh
    by (destruct h; cbn; auto using Nat.eqb_refl).
  rewrite He, Hh in Hkeep. discriminate Hkeep.
Qed.

Lemma system_on_subscribed (types : list string) (h : Handler)
  (subs : list (string * Handler)) (t : string) :
  In t types -> In (t, h) (system_on types h subs).
Proof.
  intros Ht. unfold system_on. apply in_or_app. right.
  apply in_map_iff. now exists t.
Qed.

(** After [deactivateTask], a published pointer event reaches no callback of
    the task. *)
Lemma emit_after_deactivate (e : IPointerEvent) (w : World) :
  In (type e) pointerEventTypes ->
  (forall t, In t pointerEventTypes ->
             ~ In (t, PoseTask_onPointer) (subscribers w)) ->
  system_emit e w = (e, w).
Proof.
  intros Ht Hoff. apply emit_unsubscribed.
  intros [t h] Hin Heq Hh. cbn [fst snd] in Heq, Hh. subst t h.
  exact (Hoff (type e) Ht Hin).
Qed.

(** C7: after [deactivateTask] the task's [onPointer] is subscribed to none
    of pointer-down, pointer-up and pointer-move, and every RenderQuadView
    has the Single layout; pointer events published from then on, and frame
    ticks between them, leave the whole state (the models, the layouts, the
    accumulated delta) as it is.  After [activateTask] the callback is
    subscribed to the three notifications and every RenderQuadView has the
    Quad layout. *)
Theorem task_activation_effects (w : World) :
  let wd := deactivateTask w in
  (forall t, In t pointerEventTypes ->
             ~ In (t, PoseTask_onPointer) (subscribers wd)) /\
  (forall l, In (RenderQuadView l) (renderer_views wd) -> l = Single) /\
  (forall events, Forall (fun e => In (type e) pointerEventTypes) events ->
                  run (map AEmit events) wd = wd) /\
  (forall acts, Forall tickOrPointerEvent acts -> run acts wd = wd) /\
  let wa := activateTask w in
  (forall t, In t pointerEventTypes ->
             In (t, PoseTask_onPointer) (subscribers wa)) /\
  (forall l, In (RenderQuadView l) (renderer_views wa) -> l = Quad).
Proof.
  intros wd.
  assert (forall t, In t pointerEventTypes ->
                    ~ In (t, PoseTask_onPointer) (subscribers wd)) as Hoff
    by (intros t Ht; apply system_off_unsubscribed; exact Ht).
  split; [ exact Hoff | ].
  split; [ intros l; apply setQuadLayouts_all | ].
  split; [ | split; [ | split ] ].
  - intros events Hall. unfold run.
    induction Hall as [ | e events He _ IH]; [ reflexivity | ].
    cbn [map fold_left step].
    now rewrite (emit_after_deactivate e wd He Hoff).
  - intros acts Hall. unfold run.
    induction Hall as [ | a acts Ha _ IH]; [ reflexivity | ].
    cbn [fold_left]. destruct a; cbn in Ha; try contradiction; cbn [step].
    + destruct (tick_cases wd) as [[_ Hf] | (Hact & _)];
        [ now rewrite Hf | discriminate Hact ].
    + now rewrite (emit_after_deactivate event wd Ha Hoff).
  - intros t Ht. apply system_on_subscribed. exact Ht.
  - intros l. apply setQuadLayouts_all.
Qed.

End PoseTask.

(** *** The content layer *)

(** C8: with the canvas in place, [onResize] measures [clientWidth] and
    [clientHeight], calls [view.resize] with these two values when the view
    exists, and then dispatches one ['sv-resize'] event whose detail carries
    the same two values. *)
Theorem onResize_publishes_measured_size (s : ContentLayer.State)
  (c : ContentLayer.HTMLCanvasElement) :
  ContentLayer.canvas s = Some c ->
  let width := ContentLayer.clientWidth c in
  let height := ContentLayer.clientHeight c in
  exists s',
    ContentLayer.onResize s = Return tt s' /\
    ContentLayer.calls s' =
      ContentLayer.calls s
      ++ match ContentLayer.view s with
         | Some _ => [ContentLayer.view_resize width height]
         | None => []
         end
      ++ [ContentLayer.dispatchEvent
            (ContentLayer.mkResizeEvent "sv-resize" width height)] /\
    ContentLayer.canvas s' = ContentLayer.canvas s /\
    ContentLayer.view s' = ContentLayer.view s.
Proof.
  destruct s as [cv v cl]. cbn [ContentLayer.canvas]. intros ->.
  unfold ContentLayer.onResize, ContentLayer.call.
  cbn [ContentLayer.canvas ContentLayer.view ContentLayer.calls].
  destruct v as [v | ]; eexists; (split; [ reflexivity | ]);
    cbn [ContentLayer.canvas ContentLayer.view ContentLayer.calls app];
    repeat split.
  now rewrite <- app_assoc.
Qed.

(** ** The model at work on the sample data *)




(** The same drag: the new pose is [delta x local], which puts the model at
    (3, 3, 4); [local x delta] would have put it at (2, 3, 3). *)
Lemma tick_premultiplies_delta_witness :
  let w := sampleWorld (Some orthoCamera) Translate 50 0 in
  let delta := translationBy (mkVector3 1 0 0) in
  let local := matrix (object3D sampleModel) in
  exists w', @tick seriesMath poseAPI w = Return true w' /\
    models w' 0%nat = mkModel (mkObject3D (multiplyMatrices delta local)) /\
    multiplyMatrices delta local
      = mkMatrix4 0 0 (-1) 0  0 1 0 0  1 0 0 0  3 3 4 1 /\
    multiplyMatrices local delta
      = mkMatrix4 0 0 (-1) 0  0 1 0 0  1 0 0 0  2 3 3 1.
Proof.
  intros w delta local.
  exists (@posed poseAPI w 0%nat (multiplyMatrices delta local)).
  split; [ reflexivity | ].
  destruct (@tick_premultiplies_delta seriesMath poseAPI w
              (@posed poseAPI w 0%nat (multiplyMatrices delta local)) eq_refl)
    as (m & vp & cam & Hm & Hv & Hc & Hpose & _).
  injection Hm as <-. injection Hv as <-. injection Hc as <-.
  split; [ | split; reflexivity ].
  rewrite Hpose. reflexivity.
Defined.

(** C4, as stated, fails.  With the mode Off a primary button move of
    (5, 3) is not accumulated (the delta stays at zero, not 5 and 3), its
    viewport is not recorded and the event is not marked as consumed.  And a
    tick in mode Off does not drain: a move of (5, 3) in Rotate mode, the
    mode set to Off for one tick and back to Rotate, then a move of (2, 1)
    leave (7, 4) before the next tick, while the moves since the last tick
    sum to (2, 1). *)
Lemma drag_with_mode_off_is_dropped :
  let w := sampleWorld (Some orthoCamera) Off 0 0 in
  let e := mkPointerEvent "pointer-move" 1 false false 5 3 (Some 1%nat)
                          false in
  let r := onPointer_all [e] w in
  (primaryMove e = true /\
   sumMovementX (_deltaX (task w)) [e] = 5 /\
   sumMovementY (_deltaY (task w)) [e] = 3 /\
   _deltaX (task (snd r)) = 0 /\
   _deltaY (task (snd r)) = 0 /\
   _deltaX (task (snd r)) <> sumMovementX 0 [e] /\
   _deltaY (task (snd r)) <> sumMovementY 0 [e] /\
   map stopPropagation (fst r) = [false] /\
   _viewport (task (snd r)) <> viewport e) /\
  let w0 := sampleWorld (Some orthoCamera) Rotate 0 0 in
  let e1 := moveEvent 5 3 false false in
  let e2 := moveEvent 2 1 false false in
  let w1 := @run seriesMath poseAPI
              [AEmit e1; ASetMode Off; ATick; ASetMode Rotate] w0 in
  let w2 := @run seriesMath poseAPI [AEmit e2] w1 in
  @tick seriesMath poseAPI
    (@run seriesMath poseAPI [AEmit e1; ASetMode Off] w0)
    = Return false (@run seriesMath poseAPI [AEmit e1; ASetMode Off] w0) /\
  _deltaX (task w2) = 7 /\ _deltaY (task w2) = 4 /\
  sumMovementX 0 [e2] = 2 /\ sumMovementY 0 [e2] = 1 /\
  _deltaX (task w2) <> sumMovementX 0 [e2] /\
  _deltaY (task w2) <> sumMovementY 0 [e2].
Proof.
  cbv zeta. repeat split; discriminate.
Qed.

(** The sample drag in Rotate mode, from a drained delta: the four primary
    button moves add up, in order, to (15.299999999999999, 13). *)
Lemma onPointer_accumulates_witness :
  let w := sampleWorld (Some orthoCamera) Rotate 0 0 in
  let r := onPointer_all sampleDrag w in
  _deltaX (task (snd r)) = 0 + 5 * 1 + 2 * 0.1 + 1 * 10 + 1 * 0.1 /\
  _deltaX (task (snd r)) = 15.299999999999999 /\
  _deltaY (task (snd r)) = 13 /\
  _viewport (task (snd r)) = Some 0%nat /\
  map stopPropagation (fst r) = [true; false; true; false; true; true].
Proof.
  intros w r.
  destruct (onPointer_accumulates sampleDrag w
              ltac:(discriminate) ltac:(discriminate))
    as (Hx & Hy & Hv & He).
  fold r in Hx, Hy, Hv, He.
  rewrite Hx, Hy, Hv, He. repeat split.
Defined.

(** Two ticks in a row after a drag: the first edits the pose, the second
    finds the delta drained and does nothing. *)
Lemma tick_invariant_witness :
  let w := sampleWorld (Some orthoCamera) Translate 50 0 in
  let w' := state_of (@tick seriesMath poseAPI w) in
  @tick seriesMath poseAPI w = Return true w' /\
  _deltaX (task w') = 0 /\ _deltaY (task w') = 0 /\
  @tick seriesMath poseAPI w' = Return false w'.
Proof.
  intros w w'.
  destruct (@tick_invariant seriesMath poseAPI w) as (_ & _ & Hsecond).
  split; [ reflexivity | ].
  exact (Hsecond w' eq_refl).
Defined.

(** A perspective camera behind the viewport: the drag is thrown away. *)
Lemma tick_discards_delta_witness :
  let w := sampleWorld (Some perspectiveCamera) Rotate 5 3 in
  exists w', @tick seriesMath poseAPI w = Return false w' /\
    _deltaX (task w') = 0 /\ _deltaY (task w') = 0 /\
    models w' = models w /\
    w' = set_task w (set_delta (task w) 0 0).
Proof.
  intros w.
  apply (@tick_discards_delta seriesMath poseAPI w 0%nat 0%nat);
    try reflexivity; try discriminate.
  right. exists perspectiveCamera. split; reflexivity.
Defined.

(** A move event in mode Off. *)
Lemma onPointer_gated_witness :
  let w := sampleWorld (Some orthoCamera) Off 0 0 in
  let e := moveEvent 5 3 false false in
  onPointer e w = (e, w) /\
  stopPropagation (fst (onPointer e w)) = false.
Proof.
  intros w e.
  destruct (onPointer_gated e w (or_introl eq_refl)) as (Heq & _ & _ & _ & Hs).
  split; [ exact Heq | exact Hs ].
Defined.

(** The active node changes to a node without model while a delta of (7, 7)
    is pending: whatever follows, nothing is applied. *)
Lemma onActiveNode_without_model_witness :
  let w := sampleWorld (Some orthoCamera) Rotate 7 7 in
  let acts := [ATick; ASetMode Translate; AEmit (moveEvent 5 3 false false);
               ATick; ADeactivate; AActivate; ABoundingBox; ATick] in
  let w1 := @onActiveNode poseAPI (Some (mkNode (Some 0%nat)))
                          (Some (mkNode None)) w in
  activeModel (task w1) = None /\
  models w1 = models w /\
  let w2 := @run seriesMath poseAPI acts w1 in
  activeModel (task w2) = None /\
  models w2 = models w /\
  @tick seriesMath poseAPI w2 = Return false w2.
Proof.
  intros w acts.
  apply (@onActiveNode_without_model seriesMath poseAPI).
  right. exists (mkNode None). split; reflexivity.
Defined.

(** Deactivation of the sample task, then a drag and a tick. *)
Lemma task_activation_effects_witness :
  let wd := deactivateTask (sampleWorld (Some orthoCamera) Rotate 0 0) in
  subscribers wd = [("wheel"%string, Foreign 7)] /\
  renderer_views wd = [RenderQuadView Single; OtherView] /\
  @run seriesMath poseAPI (map AEmit sampleDrag ++ [ATick]) wd = wd /\
  renderer_views (activateTask wd) = [RenderQuadView Quad; OtherView].
Proof.
  intros wd.
  destruct (@task_activation_effects seriesMath poseAPI
              (sampleWorld (Some orthoCamera) Rotate 0 0))
    as (_ & _ & _ & Hrun & _).
  split; [ reflexivity | ]. split; [ reflexivity | ].
  split; [ | reflexivity ].
  apply Hrun. unfold sampleDrag, moveEvent. cbn [map app].
  repeat (apply Forall_cons; [ cbn; auto 6 | ]). apply Forall_nil.
Defined.

(** A canvas of 800 by 600 with a view. *)
Lemma onResize_publishes_measured_size_witness :
  let s := ContentLayer.mkState (Some (ContentLayer.mkCanvas 800 600))
                                (Some 0%nat) [] in
  exists s',
    ContentLayer.onResize s = Return tt s' /\
    ContentLayer.calls s' =
      [ContentLayer.view_resize 800 600;
       ContentLayer.dispatchEvent
         (ContentLayer.mkResizeEvent "sv-resize" 800 600)] /\
    ContentLayer.canvas s' = ContentLayer.canvas s /\
    ContentLayer.view s' = ContentLayer.view s.
Proof.
  intros s.
  exact (onResize_publishes_measured_size s (ContentLayer.mkCanvas 800 600)
           eq_refl).
Defined.

(** ** Further properties of the pose task *)

Section PoseTaskOverTime.

Context {jsMath : JSMath} {modelAPI : ModelAPI}.

(** The states a tick can end in. *)
Lemma tick_state (w : World) :
  (tick w = Return false w /\ state_of (tick w) = w) \/
  (deltaNonZero (task w) = true /\ state_of (tick w) = drained w) \/
  (deltaNonZero (task w) = true /\
   exists m pose, activeModel (task w) = Some m /\
                  tick w = Return true (posed w m pose)).
Proof.
  destruct (tick_cases w) as [[_ Hf] | (_ & _ & Hd & m & Hm & Hrest)].
  - left. now rewrite Hf.
  - right.
    destruct Hrest as [[_ Hf] | (vp & _ & [[_ Hf] | (cam & _ & _ & Hf)])].
    + left. now rewrite Hf.
    + left. now rewrite Hf.
    + right. eauto 6.
Qed.

(** X1: Only the accumulated delta and the active model are within reach of a
    tick: whatever its outcome, the mode, the active model reference, the
    activity flags, the size output, the recorded viewport, the viewports,
    the view layouts, the subscriptions, the selection and the console are
    what they were, and so is every model but the active one. *)
Theorem tick_frame (w : World) :
  let w' := state_of (tick w) in
  (ins_mode (task w') = ins_mode (task w) /\
   activeModel (task w') = activeModel (task w) /\
   isActiveTask (task w') = isActiveTask (task w) /\
   observing (task w') = observing (task w) /\
   outs_size (task w') = outs_size (task w) /\
   _viewport (task w') = _viewport (task w)) /\
  (viewports w' = viewports w /\
   renderer_views w' = renderer_views w /\
   subscribers w' = subscribers w /\
   selection w' = selection w /\
   console w' = console w) /\
  forall m, activeModel (task w) <> Some m -> models w' m = models w m.
Proof.
  cbv zeta.
  destruct (tick_state w) as [[_ ->] | [[_ ->] | (_ & m & pose & Hm & ->)]].
  - repeat split.
  - repeat split.
  - cbn [state_of]. repeat split.
    intros m' Hne. unfold posed, store_update. cbn [models set_models].
    destruct (Nat.eqb m' m) eqn:Heq; [ | reflexivity ].
    apply Nat.eqb_eq in Heq. congruence.
Qed.

(** X2: Without new pointer input a tick is never followed by a second edit:
    after any tick, whatever its outcome, the next tick returns [false] and
    changes nothing. *)
Theorem tick_twice (w : World) :
  tick (state_of (tick w)) = Return false (state_of (tick w)).
Proof.
  destruct (tick_state w) as [[Hf ->] | [[_ ->] | (_ & m & pose & _ & ->)]].
  - exact Hf.
  - now apply tick_zero_delta.
  - now apply tick_zero_delta.
Qed.

(** X3: A pending delta whose viewport is null: the tick throws, but only after
    draining the delta; no model is touched and the next tick returns
    [false], so the error is thrown once per drag, not once per frame. *)
Theorem tick_null_viewport_throws_once (w : World) (m : ModelRef) :
  isActiveTask (task w) = true ->
  ins_mode (task w) <> Off ->
  activeModel (task w) = Some m ->
  deltaNonZero (task w) = true ->
  _viewport (task w) = None ->
  exists w', tick w = Throw w' /\
    _deltaX (task w') = 0 /\ _deltaY (task w') = 0 /\
    models w' = models w /\
    tick w' = Return false w'.
Proof.
  intros Ha Hmode Hm Hd Hv. exists (drained w).
  assert (tickGuards w m) as Hg by (unfold tickGuards; auto).
  destruct (tick_guards_pass w m Hg) as [[_ Ht] | (vp & Hv' & _)];
    [ | congruence ].
  repeat split; [ exact Ht | now apply tick_zero_delta ].
Qed.

(** *** No tick throws when every event names its viewport *)

Lemma viewportKnown_same (w w' : World) :
  _deltaX (task w') = _deltaX (task w) ->
  _deltaY (task w') = _deltaY (task w) ->
  _viewport (task w') = _viewport (task w) ->
  viewportKnown w -> viewportKnown w'.
Proof.
  unfold viewportKnown, deltaNonZero. intros -> -> ->. auto.
Qed.

Lemma viewportKnown_tick (w : World) :
  viewportKnown w -> viewportKnown (state_of (tick w)).
Proof.
  intros Hk.
  destruct (tick_state w) as [[_ ->] | [[_ ->] | (_ & m & pose & _ & ->)]];
    [ exact Hk | | ]; intros Hd; discriminate Hd.
Qed.

Lemma viewportKnown_onPointer (e : IPointerEvent) (w : World) :
  viewport e <> None -> viewportKnown w ->
  viewport (fst (onPointer e w)) = viewport e /\
  type (fst (onPointer e w)) = type e /\
  viewportKnown (snd (onPointer e w)).
Proof.
  intros He Hk. unfold onPointer.
  destruct (EPoseManipMode_eqb (ins_mode (task w)) Off
            || negb (isSome (activeModel (task w)))); [ now cbn | ].
  destruct (buttons e =? 1)%Z; [ | now cbn ].
  destruct (String.eqb (type e) "pointer-move"); [ | now cbn ].
  cbn. repeat split. intros _. exact He.
Qed.

Lemma viewportKnown_emit (e : IPointerEvent) (w : World) :
  viewport e <> None -> viewportKnown w ->
  viewportKnown (snd (system_emit e w)).
Proof.
  intros He Hk. unfold system_emit.
  generalize (subscribers w) as subs.
  assert (viewport (fst (e, w)) = viewport e /\ type (fst (e, w)) = type e
          /\ viewportKnown (snd (e, w))) as Hinv by now cbn.
  revert Hinv. generalize (e, w) as ew.
  intros ew Hinv subs. revert ew Hinv.
  induction subs as [ | s subs IH]; intros ew (Hv & Ht & Hk');
    [ exact Hk' | ].
  cbn [fold_left]. apply IH.
  destruct (String.eqb (fst s) (type (fst ew))); [ | auto ].
  destruct (snd s); [ | auto ].
  destruct (viewportKnown_onPointer (fst ew) (snd ew)) as (Hv1 & Ht1 & Hk1);
    [ congruence | exact Hk' | ].
  split; [ congruence | split; [ congruence | exact Hk1 ] ].
Qed.

Lemma viewportKnown_step (a : PoseAction) (w : World) :
  carriesViewport a -> viewportKnown w -> viewportKnown (poseStep a w).
Proof.
  intros Ha Hk. destruct a as [a | previous next]; cbn [poseStep].
  - destruct a; cbn [step].
    + now apply viewportKnown_tick.
    + now apply viewportKnown_emit.
    + now apply (viewportKnown_same w).
    + now apply (viewportKnown_same w).
    + now apply (viewportKnown_same w).
    + apply (viewportKnown_same w); auto;
        unfold onModelBoundingBox; destruct (activeModel (task w));
        reflexivity.
  - apply (viewportKnown_same w); auto; unfold onActiveNode;
      destruct next as [[[m | ]] | ]; reflexivity.
Qed.

(** X4: From a task whose delta is zero, as a new task's is, no tick ever throws:
    whatever ticks, published pointer events, mode changes, activations,
    deactivations, bounding box notifications and changes of the active node
    come first, as long as every published event names a viewport, the
    tick returns. *)
Theorem tick_never_throws (acts : list PoseAction) (w : World) :
  _deltaX (task w) = 0 -> _deltaY (task w) = 0 ->
  Forall carriesViewport acts ->
  exists b w', tick (poseRun acts w) = Return b w'.
Proof.
  intros Hx Hy Hall.
  assert (viewportKnown (poseRun acts w)) as Hk.
  { assert (viewportKnown w) as Hk0
      by (unfold viewportKnown, deltaNonZero; rewrite Hx, Hy; discriminate).
    clear Hx Hy. revert w Hk0. unfold poseRun.
    induction Hall as [ | a acts Ha _ IH]; intros w Hk0; [ exact Hk0 | ].
    cbn [fold_left]. apply IH. now apply viewportKnown_step. }
  destruct (tick_cases (poseRun acts w))
    as [[_ Hf] | (_ & _ & Hd & m & _ & Hrest)]; [ eauto | ].
  destruct Hrest as [[Hn _] | (vp & _ & [[_ Hf] | (cam & _ & _ & Hf)])];
    eauto.
  exfalso. exact (Hk Hd Hn).
Qed.

(** *** Pointer events and ticks together *)

(** [tick_edits], with the state read field by field. *)
Lemma tick_edits_fields (w : World) (m : ModelRef) (vp : ViewportRef)
  (cam : UniversalCamera) (mode : EPoseManipMode) (dx dy h : number)
  (local : Matrix4) :
  isActiveTask (task w) = true ->
  ins_mode (task w) = mode -> mode <> Off ->
  activeModel (task w) = Some m ->
  _deltaX (task w) = dx -> _deltaY (task w) = dy ->
  negb ((dx =? 0) && (dy =? 0)) = true ->
  _viewport (task w) = Some vp ->
  camera (viewports w vp) = Some cam ->
  isOrthographicCamera cam = true ->
  height (viewports w vp) = h ->
  matrix (object3D (models w m)) = local ->
  tick w = Return true
             (posed w m (multiply (deltaTransform mode dx dy cam h) local)).
Proof.
  intros Ha <- Hmode Hm <- <- Hd Hv Hc Ho <- <-.
  apply (tick_edits w m vp cam); auto. unfold tickGuards; auto.
Qed.

(** An event that is not a move with exactly the primary button held is
    ignored, enabled or not. *)
Lemma onPointer_ignores (e : IPointerEvent) (w : World) :
  primaryMove e = false -> onPointer e w = (e, w).
Proof.
  unfold primaryMove, onPointer. intros Hp.
  destruct (EPoseManipMode_eqb (ins_mode (task w)) Off
            || negb (isSome (activeModel (task w)))); [ reflexivity | ].
  destruct (buttons e =? 1)%Z; [ | reflexivity ].
  destruct (String.eqb (type e) "pointer-move"); [ discriminate Hp | ].
  reflexivity.
Qed.

(** Of the whole state, one call of [onPointer] can change the accumulated
    delta and the recorded viewport, and nothing else. *)
Lemma onPointer_shape (e : IPointerEvent) (w : World) :
  exists dx dy vp,
    snd (onPointer e w)
    = set_task w (set_viewport (set_delta (task w) dx dy) vp).
Proof.
  assert (w = set_task w
                (set_viewport
                   (set_delta (task w) (_deltaX (task w)) (_deltaY (task w)))
                   (_viewport (task w)))) as Hsame
    by (destruct w as [[] ]; reflexivity).
  unfold onPointer.
  destruct (EPoseManipMode_eqb (ins_mode (task w)) Off
            || negb (isSome (activeModel (task w)))); [ cbn [snd]; eauto | ].
  destruct (buttons e =? 1)%Z; [ | cbn [snd]; eauto ].
  destruct (String.eqb (type e) "pointer-move"); cbn [snd]; eauto.
Qed.

(** X5: Pointer input never edits a pose, a layout or a subscription: after any
    sequence of events handed to [onPointer], the state differs from the
    one before in the accumulated delta and the recorded viewport at most.
    And a sequence without a move made with exactly the primary button held
    (pointer-down, pointer-up, moves with no button or with several) leaves
    the state and the events as they were. *)
Theorem pointer_events_only_accumulate (events : list IPointerEvent)
  (w : World) :
  (exists dx dy vp,
     snd (onPointer_all events w)
     = set_task w (set_viewport (set_delta (task w) dx dy) vp)) /\
  (Forall (fun e => primaryMove e = false) events ->
   onPointer_all events w = (events, w)).
Proof.
  split.
  - revert w. induction events as [ | e rest IH]; intros w.
    + exists (_deltaX (task w)), (_deltaY (task w)), (_viewport (task w)).
      destruct w as [[] ]; reflexivity.
    + cbn [onPointer_all snd].
      destruct (onPointer_shape e w) as (dx & dy & vp & ->).
      destruct (IH (set_task w (set_viewport (set_delta (task w) dx dy) vp)))
        as (dx' & dy' & vp' & ->).
      exists dx', dy', vp'. reflexivity.
  - intros Hall. revert w.
    induction Hall as [ | e rest He _ IH]; intros w; [ reflexivity | ].
    cbn [onPointer_all]. rewrite (onPointer_ignores e w He).
    cbn [fst snd]. now rewrite IH.
Qed.

(** The task after a sequence of events, while the tool is enabled. *)
Lemma onPointer_all_enabled (events : list IPointerEvent) (w : World) :
  ins_mode (task w) <> Off -> activeModel (task w) <> None ->
  snd (onPointer_all events w)
  = set_task w
      (set_viewport
         (set_delta (task w)
            (sumMovementX (_deltaX (task w)) events)
            (sumMovementY (_deltaY (task w)) events))
         (fold_left (fun _ e => viewport e) (filter primaryMove events)
                    (_viewport (task w)))).
Proof.
  revert w. induction events as [ | e rest IH]; intros w Hmode Hm.
  - destruct w as [[] ]; reflexivity.
  - cbn [onPointer_all snd]. rewrite (onPointer_enabled e w Hmode Hm).
    unfold sumMovementX, sumMovementY. cbn [filter].
    destruct (primaryMove e); cbn [snd fold_left].
    + rewrite IH by (cbn; assumption). reflexivity.
    + now rewrite IH.
Qed.

(** X6: A drag and the tick after it, end to end: while the tool is enabled
    and the task active, the events of a drag followed by one tick edit
    the pose of the active model by the delta transform of the sums of
    [movement * speed] over the primary button moves, seen through the
    camera of the viewport of the last such move; the sums must not both
    be zero and that camera must be orthographic. *)
Theorem drag_then_tick (events : list IPointerEvent) (w : World)
  (m : ModelRef) (vp : ViewportRef) (cam : UniversalCamera) :
  isActiveTask (task w) = true ->
  ins_mode (task w) <> Off ->
  activeModel (task w) = Some m ->
  let dx := sumMovementX (_deltaX (task w)) events in
  let dy := sumMovementY (_deltaY (task w)) events in
  negb ((dx =? 0) && (dy =? 0)) = true ->
  fold_left (fun _ e => viewport e) (filter primaryMove events)
            (_viewport (task w)) = Some vp ->
  camera (viewports w vp) = Some cam ->
  isOrthographicCamera cam = true ->
  let w1 := snd (onPointer_all events w) in
  tick w1 =
    Return true
      (posed w1 m
         (multiply
            (deltaTransform (ins_mode (task w)) dx dy cam
                            (height (viewports w vp)))
            (matrix (object3D (models w m))))).
Proof.
  intros Ha Hmode Hm dx dy Hd Hv Hc Ho w1.
  assert (w1 = set_task w
                 (set_viewport (set_delta (task w) dx dy) (Some vp))) as Hw1.
  { subst w1 dx dy. rewrite onPointer_all_enabled by congruence.
    now rewrite Hv. }
  apply (tick_edits_fields w1 m vp cam); try rewrite Hw1; cbn; auto.
Qed.

(** *** A pending delta outlives what happens around it *)

(** [onActiveNode] towards a node with a model. *)
Lemma onActiveNode_with_model (previous : option NVNode) (n : NVNode)
  (m : ModelRef) (w : World) :
  model n = Some m ->
  onActiveNode previous (Some n) w
  = console_log
      (set_task (set_selection w (Some m))
         (set_outs_size (set_activeModel (task w) (Some m))
            (boundingBoxSize (object3D (models w m)))))
      "on bounding box".
Proof.
  intros Hm. unfold onActiveNode, onModelBoundingBox, selectComponent.
  rewrite Hm. reflexivity.
Qed.

(** X7: A change of the active node does not drain the delta: the movement
    accumulated while another model (or none) was active is applied by the
    next tick to the model of the new node, which is selected and whose
    bounding box size is published; every other model stays as it is. *)
Theorem pending_delta_goes_to_new_model (previous : option NVNode)
  (n : NVNode) (m : ModelRef) (w : World) (vp : ViewportRef)
  (cam : UniversalCamera) :
  model n = Some m ->
  isActiveTask (task w) = true ->
  ins_mode (task w) <> Off ->
  deltaNonZero (task w) = true ->
  _viewport (task w) = Some vp ->
  camera (viewports w vp) = Some cam ->
  isOrthographicCamera cam = true ->
  let w1 := onActiveNode previous (Some n) w in
  activeModel (task w1) = Some m /\
  selection w1 = Some m /\
  outs_size (task w1) = boundingBoxSize (object3D (models w m)) /\
  _deltaX (task w1) = _deltaX (task w) /\
  _deltaY (task w1) = _deltaY (task w) /\
  tick w1 =
    Return true
      (posed w1 m
         (multiply
            (deltaTransform (ins_mode (task w)) (_deltaX (task w))
               (_deltaY (task w)) cam (height (viewports w vp)))
            (matrix (object3D (models w m))))) /\
  forall m', m' <> m -> models (state_of (tick w1)) m' = models w m'.
Proof.
  intros Hn Ha Hmode Hd Hv Hc Ho w1.
  assert (w1 = console_log
                 (set_task (set_selection w (Some m))
                    (set_outs_size (set_activeModel (task w) (Some m))
                       (boundingBoxSize (object3D (models w m)))))
                 "on bounding box") as Hw1
    by (subst w1; now apply onActiveNode_with_model).
  assert (tick w1 =
    Return true
      (posed w1 m
         (multiply
            (deltaTransform (ins_mode (task w)) (_deltaX (task w))
               (_deltaY (task w)) cam (height (viewports w vp)))
            (matrix (object3D (models w m)))))) as Ht
    by (apply (tick_edits_fields w1 m vp cam); try rewrite Hw1; cbn; auto).
  rewrite Ht, Hw1. cbn [state_of]. repeat split.
  intros m' Hne. unfold posed, store_update. cbn [models set_models].
  apply Nat.eqb_neq in Hne. now rewrite Hne.
Qed.

(** X8: Deactivation does not drain the delta either: a movement accumulated
    before [deactivateTask] is kept while the task is inactive (ticks return
    [false]) and is applied by the first tick after [activateTask]. *)
Theorem pending_delta_survives_deactivation (w : World) (m : ModelRef)
  (vp : ViewportRef) (cam : UniversalCamera) :
  ins_mode (task w) <> Off ->
  activeModel (task w) = Some m ->
  deltaNonZero (task w) = true ->
  _viewport (task w) = Some vp ->
  camera (viewports w vp) = Some cam ->
  isOrthographicCamera cam = true ->
  let wd := deactivateTask w in
  tick wd = Return false wd /\
  _deltaX (task wd) = _deltaX (task w) /\
  _deltaY (task wd) = _deltaY (task w) /\
  let wa := activateTask wd in
  tick wa =
    Return true
      (posed wa m
         (multiply
            (deltaTransform (ins_mode (task w)) (_deltaX (task w))
               (_deltaY (task w)) cam (height (viewports w vp)))
            (matrix (object3D (models w m))))).
Proof.
  intros Hmode Hm Hd Hv Hc Ho wd. split; [ | split; [ | split ] ].
  - destruct (tick_cases wd) as [[_ Hf] | (Hact & _)];
      [ exact Hf | discriminate Hact ].
  - reflexivity.
  - reflexivity.
  - intros wa.
    apply (tick_edits_fields wa m vp cam); subst wa wd; cbn; auto.
Qed.

(** *** Layouts across an activation *)

Lemma setQuadLayouts_twice (l l' : EQuadViewLayout) (views : list RenderView) :
  setQuadLayouts l (setQuadLayouts l' views) = setQuadLayouts l views.
Proof.
  unfold setQuadLayouts. rewrite map_map. apply map_ext.
  intros [l0 | ]; reflexivity.
Qed.

Lemma setQuadLayouts_fixed (l : EQuadViewLayout) (views : list RenderView) :
  setQuadLayouts l views = views <->
  forall l', In (RenderQuadView l') views -> l' = l.
Proof.
  induction views as [ | v views IH]; cbn [setQuadLayouts map].
  - split; [ intros _ l' [] | reflexivity ].
  - fold (setQuadLayouts l views). split.
    + intros Heq l' [Hv | Hin].
      * injection Heq as Hhead _. subst v. now injection Hhead.
      * injection Heq as _ Htail. now apply IH.
    + intros Hall. f_equal.
      * destruct v as [l0 | ]; [ | reflexivity ].
        f_equal. symmetry. apply Hall. now left.
      * apply IH. intros l' Hin. apply Hall. now right.
Qed.

(** X9: The layouts found at activation are not remembered: after
    [activateTask] and [deactivateTask] every RenderQuadView is Single, the
    views of other classes are untouched and in place, and the layouts are
    those found before the activation exactly when every RenderQuadView
    was Single then. *)
Theorem layouts_after_activation (w : World) :
  let views := renderer_views w in
  let views' := renderer_views (deactivateTask (activateTask w)) in
  views' = setQuadLayouts Single views /\
  List.length views' = List.length views /\
  (forall i, nth_error views i = Some OtherView ->
             nth_error views' i = Some OtherView) /\
  (views' = views <->
   forall l, In (RenderQuadView l) views -> l = Single).
Proof.
  intros views views'.
  assert (views' = setQuadLayouts Single views) as ->
    by (subst views' views; cbn; apply setQuadLayouts_twice).
  split; [ reflexivity | ]. split; [ | split ].
  - unfold setQuadLayouts. apply length_map.
  - intros i Hi. unfold setQuadLayouts. rewrite nth_error_map, Hi.
    reflexivity.
  - apply setQuadLayouts_fixed.
Qed.

End PoseTaskOverTime.

(** ** Further properties of the content layer *)

(** [onResize] touches nothing but the calls made. *)
Lemma onResize_keeps (s : ContentLayer.State) :
  ContentLayer.canvas (state_of (ContentLayer.onResize s))
    = ContentLayer.canvas s /\
  ContentLayer.view (state_of (ContentLayer.onResize s))
    = ContentLayer.view s.
Proof.
  destruct s as [[c | ] [v | ] cl]; cbn; auto.
Qed.

(** [onResize] with a canvas and a view. *)
Lemma onResize_live (c : ContentLayer.HTMLCanvasElement) (v : nat)
  (cl : list ContentLayer.Call) :
  ContentLayer.onResize (ContentLayer.mkState (Some c) (Some v) cl)
  = Return tt
      (ContentLayer.mkState (Some c) (Some v)
         (cl ++ [ContentLayer.view_resize (ContentLayer.clientWidth c)
                                          (ContentLayer.clientHeight c);
                 ContentLayer.dispatchEvent
                   (ContentLayer.mkResizeEvent "sv-resize"
                      (ContentLayer.clientWidth c)
                      (ContentLayer.clientHeight c))])).
Proof.
  unfold ContentLayer.onResize, ContentLayer.call. cbn.
  now rewrite <- app_assoc.
Qed.

Lemma wired_step (a : ContentLayerElement.Lifecycle)
  (el : ContentLayerElement.Element) :
  ContentLayerElement.wired el ->
  ContentLayerElement.wired (ContentLayerElement.lifecycleStep a el).
Proof.
  intros (Hnext & Hlis & Hlive & Hdisp).
  destruct el as [[cv v cl] ov sp ls nx rl k ds].
  cbn in Hnext, Hlis, Hlive, Hdisp. subst nx rl.
  assert (forall s : ContentLayer.State,
            ContentLayerElement.wired
              (ContentLayerElement.mkElement
                 (ContentLayer.mkState (ContentLayer.canvas s) (Some k)
                                       (ContentLayer.calls s))
                 ov sp ls (Some k) true (S k) ds)) as Hconnected.
  { intros s. unfold ContentLayerElement.wired; cbn.
    split; [ reflexivity | ]. split; [ reflexivity | ]. split.
    - intros v' Hv'. injection Hv' as <-. split; [ lia | ].
      intros Hin. apply Hdisp in Hin. lia.
    - intros v' Hin. apply Hdisp in Hin. lia. }
  assert (forall s : ContentLayer.State,
            ContentLayerElement.wired
              (ContentLayerElement.mkElement
                 (ContentLayer.mkState (ContentLayer.canvas s) v
                                       (ContentLayer.calls s))
                 ov sp ls v (isSome v) k ds)) as Hkept.
  { intros s. unfold ContentLayerElement.wired; cbn. auto. }
  destruct a as [c | | | c]; cbn [ContentLayerElement.lifecycleStep].
  - exact (Hkept (ContentLayer.mkState (Some c) v cl)).
  - unfold ContentLayerElement.connected; cbn.
    destruct cv as [c | ].
    + rewrite onResize_live. cbn.
      exact (Hconnected (ContentLayer.mkState (Some c) None _)).
    + cbn. exact (Hconnected (ContentLayer.mkState None None cl)).
  - unfold ContentLayerElement.disconnected; cbn.
    destruct v as [v | ]; cbn.
    + unfold ContentLayerElement.wired; cbn.
      split; [ reflexivity | ]. split; [ reflexivity | ]. split.
      * discriminate.
      * intros v' [<- | Hin];
          [ exact (proj1 (Hlive v eq_refl)) | now apply Hdisp ].
    + exact (Hkept (ContentLayer.mkState cv None cl)).
  - unfold ContentLayerElement.windowResize; cbn.
    destruct cv as [c0 | ]; cbn.
    + destruct v as [v | ]; cbn.
      * exact (Hkept (ContentLayer.mkState (Some c) None _)).
      * exact (Hkept (ContentLayer.mkState (Some c) None cl)).
    + destruct v as [v | ]; cbn.
      * exact (Hkept (ContentLayer.mkState None None cl)).
      * exact (Hkept (ContentLayer.mkState None None cl)).
Qed.

(** X10: From its construction on, whatever sequence of [firstConnected],
    [connected], [disconnected] and window resizes an element goes through
    (throwing calls included), pointer input is routed to the view there is
    or nowhere, the window listener is registered exactly while there is a
    view, and the view there is is never a disposed one. *)
Theorem lifecycle_keeps_wiring (acts : list ContentLayerElement.Lifecycle) :
  let el := ContentLayerElement.lifecycleRun acts
              ContentLayerElement.constructor in
  ContentLayerElement.manipTarget_next el
    = ContentLayer.view (ContentLayerElement.layer el) /\
  ContentLayerElement.resizeListener el
    = isSome (ContentLayer.view (ContentLayerElement.layer el)) /\
  (forall v, ContentLayer.view (ContentLayerElement.layer el) = Some v ->
             ~ In v (ContentLayerElement.disposed el)).
Proof.
  cbv zeta.
  assert (ContentLayerElement.wired
            (ContentLayerElement.lifecycleRun acts
               ContentLayerElement.constructor)) as (Hn & Hl & Hv & _).
  { assert (ContentLayerElement.wired ContentLayerElement.constructor) as H0
      by (unfold ContentLayerElement.wired; cbn; repeat split; auto;
          (discriminate || contradiction)).
    revert H0. generalize ContentLayerElement.constructor as el.
    unfold ContentLayerElement.lifecycleRun.
    induction acts as [ | a acts IH]; intros el Hw; [ exact Hw | ].
    cbn [fold_left]. apply IH. now apply wired_step. }
  repeat split; auto. intros v Hsome. now apply (Hv v).
Qed.

(** X11: A window resize is published exactly while the element is connected:
    with the wiring above and a canvas, a resize of the window to the
    measures [c] resizes the view there is to [c] and dispatches one
    ['sv-resize'] with [c]; when there is no view (before [connected], after
    [disconnected]) nothing is called and nothing dispatched. *)
Theorem window_resize_published_iff_connected
  (c : ContentLayer.HTMLCanvasElement) (el : ContentLayerElement.Element) :
  ContentLayerElement.wired el ->
  ContentLayer.canvas (ContentLayerElement.layer el) <> None ->
  exists el',
    ContentLayerElement.windowResize c el = Return tt el' /\
    ContentLayer.canvas (ContentLayerElement.layer el') = Some c /\
    ContentLayer.calls (ContentLayerElement.layer el')
    = ContentLayer.calls (ContentLayerElement.layer el)
      ++ match ContentLayer.view (ContentLayerElement.layer el) with
         | Some _ =>
           [ContentLayer.view_resize (ContentLayer.clientWidth c)
                                     (ContentLayer.clientHeight c);
            ContentLayer.dispatchEvent
              (ContentLayer.mkResizeEvent "sv-resize"
                 (ContentLayer.clientWidth c) (ContentLayer.clientHeight c))]
         | None => []
         end.
Proof.
  intros (_ & Hlis & _) Hc.
  destruct el as [[cv v cl] ov sp ls nx rl k ds]. cbn in Hlis, Hc. subst rl.
  destruct cv as [c0 | ]; [ | congruence ].
  unfold ContentLayerElement.windowResize; cbn.
  destruct v as [v | ]; cbn.
  - eexists. split; [ reflexivity | ]. split; [ reflexivity | ].
    cbn. now rewrite <- app_assoc.
  - eexists. split; [ reflexivity | ]. split; [ reflexivity | ].
    cbn. now rewrite app_nil_r.
Qed.

(** X12: Connecting and disconnecting: [connected] on an element with a canvas
    constructs a view, routes input to it, registers the window listener,
    resizes that view to the canvas and publishes the size once;
    [disconnected] then undoes the wiring and disposes that very view; a
    second [disconnected] throws and changes nothing. *)
Theorem connect_then_disconnect (c : ContentLayer.HTMLCanvasElement)
  (el : ContentLayerElement.Element) :
  ContentLayer.canvas (ContentLayerElement.layer el) = Some c ->
  let v := ContentLayerElement.constructed el in
  let published :=
    ContentLayer.calls (ContentLayerElement.layer el)
    ++ [ContentLayer.view_resize (ContentLayer.clientWidth c)
                                 (ContentLayer.clientHeight c);
        ContentLayer.dispatchEvent
          (ContentLayer.mkResizeEvent "sv-resize"
             (ContentLayer.clientWidth c) (ContentLayer.clientHeight c))] in
  exists el1 el2,
    ContentLayerElement.connected el = Return tt el1 /\
    ContentLayer.view (ContentLayerElement.layer el1) = Some v /\
    ContentLayerElement.manipTarget_next el1 = Some v /\
    ContentLayerElement.resizeListener el1 = true /\
    ContentLayer.calls (ContentLayerElement.layer el1) = published /\
    ContentLayerElement.disconnected el1 = Return tt el2 /\
    el2 = ContentLayerElement.mkElement
            (ContentLayer.mkState (Some c) None published)
            (ContentLayerElement.overlay el)
            (ContentLayerElement.splitter el)
            (ContentLayerElement.listeners el)
            None false (S v) (v :: ContentLayerElement.disposed el) /\
    ContentLayerElement.disconnected el2 = Throw el2.
Proof.
  destruct el as [[cv v0 cl] ov sp ls nx rl k ds].
  cbn -[ContentLayer.onResize]. intros ->.
  unfold ContentLayerElement.connected; cbn -[ContentLayer.onResize].
  rewrite onResize_live.
  do 2 eexists. repeat split.
Qed.

(** ** The further properties on the sample data *)

(** A drag recorded without a viewport: one throw, then quiet. *)
Lemma tick_null_viewport_throws_once_witness :
  let w := worldAround (sampleTask Rotate 5 3 None (Some 0%nat))
                       (Some orthoCamera) in
  exists w', @tick seriesMath poseAPI w = Throw w' /\
    _deltaX (task w') = 0 /\ _deltaY (task w') = 0 /\
    models w' = models w /\
    @tick seriesMath poseAPI w' = Return false w'.
Proof.
  intros w.
  exact (@tick_null_viewport_throws_once seriesMath poseAPI w 0%nat
           eq_refl ltac:(discriminate) eq_refl eq_refl eq_refl).
Defined.

(** The sample session from a new task: the tick after it returns. *)
Lemma tick_never_throws_witness :
  exists b w',
    @tick seriesMath poseAPI
      (@poseRun seriesMath poseAPI sampleSession
         (worldAround newTask (Some orthoCamera)))
    = Return b w'.
Proof.
  apply (@tick_never_throws seriesMath poseAPI sampleSession
           (worldAround newTask (Some orthoCamera)) eq_refl eq_refl).
  unfold sampleSession.
  repeat (apply Forall_cons; [ cbn; (exact I || discriminate) | ]).
  apply Forall_nil.
Defined.

(** The sample drag in Translate mode and the tick after it: the sums are
    (15.299999999999999, 13), and the model is moved by them scaled with
    10 / 500. *)
Lemma drag_then_tick_witness :
  let w := sampleWorld (Some orthoCamera) Translate 0 0 in
  let w1 := snd (onPointer_all sampleDrag w) in
  @tick seriesMath poseAPI w1 =
    Return true
      (@posed poseAPI w1 0%nat
         (multiply
            (@deltaTransform seriesMath Translate 15.299999999999999 13
               orthoCamera 500)
            (matrix (object3D sampleModel)))).
Proof.
  intros w w1.
  exact (@drag_then_tick seriesMath poseAPI sampleDrag w 0%nat 0%nat
           orthoCamera eq_refl ltac:(discriminate) eq_refl eq_refl eq_refl
           eq_refl eq_refl).
Defined.

(** A drag of 50 pixels is pending on model 0 when the node of model 1
    becomes active: the tick moves model 1 and leaves model 0 alone. *)
Lemma pending_delta_goes_to_new_model_witness :
  let w := sampleWorld (Some orthoCamera) Translate 50 0 in
  let w1 := @onActiveNode poseAPI (Some (mkNode (Some 0%nat)))
                          (Some (mkNode (Some 1%nat))) w in
  let w2 := state_of (@tick seriesMath poseAPI w1) in
  activeModel (task w1) = Some 1%nat /\
  models w2 1%nat
    = mkModel (mkObject3D (mkMatrix4 0 0 (-1) 0  0 1 0 0  1 0 0 0  3 3 4 1)) /\
  models w2 0%nat = sampleModel.
Proof.
  intros w w1 w2.
  destruct (@pending_delta_goes_to_new_model seriesMath poseAPI
              (Some (mkNode (Some 0%nat))) (mkNode (Some 1%nat)) 1%nat w
              0%nat orthoCamera eq_refl eq_refl ltac:(discriminate) eq_refl
              eq_refl eq_refl eq_refl)
    as (Hm & _ & _ & _ & _ & Ht & Hothers).
  split; [ exact Hm | ]. split.
  - subst w2 w1. rewrite Ht. reflexivity.
  - exact (Hothers 0%nat ltac:(discriminate)).
Defined.

(** A drag of 50 pixels is pending when the task is deactivated. *)
Lemma pending_delta_survives_deactivation_witness :
  let w := sampleWorld (Some orthoCamera) Translate 50 0 in
  let wd := deactivateTask w in
  let wa := activateTask wd in
  @tick seriesMath poseAPI wd = Return false wd /\
  _deltaX (task wd) = 50 /\
  models (state_of (@tick seriesMath poseAPI wa)) 0%nat
    = mkModel (mkObject3D (mkMatrix4 0 0 (-1) 0  0 1 0 0  1 0 0 0  3 3 4 1)).
Proof.
  intros w wd wa.
  destruct (@pending_delta_survives_deactivation seriesMath poseAPI w 0%nat
              0%nat orthoCamera ltac:(discriminate) eq_refl eq_refl eq_refl
              eq_refl eq_refl)
    as (Hd & Hx & _ & Ha).
  split; [ exact Hd | ]. split; [ exact Hx | ].
  subst wa wd. cbv zeta in Ha. rewrite Ha. reflexivity.
Defined.

(** A connected element of 800 by 600 and a window resize to 400 by 300. *)
Lemma window_resize_published_iff_connected_witness :
  let el := state_of (ContentLayerElement.connected
                        (ContentLayerElement.firstConnected
                           (ContentLayer.mkCanvas 800 600)
                           ContentLayerElement.constructor)) in
  exists el',
    ContentLayerElement.windowResize (ContentLayer.mkCanvas 400 300) el
      = Return tt el' /\
    ContentLayerElement.dispatched (ContentLayerElement.layer el')
      = [ContentLayer.mkResizeEvent "sv-resize" 800 600;
         ContentLayer.mkResizeEvent "sv-resize" 400 300].
Proof.
  intros el.
  destruct (window_resize_published_iff_connected
              (ContentLayer.mkCanvas 400 300) el)
    as (el' & Hr & _ & Hcalls).
  - unfold ContentLayerElement.wired; cbn.
    split; [ reflexivity | ]. split; [ reflexivity | ]. split.
    + intros v Hv. injection Hv as <-. split; [ lia | intros [] ].
    + intros v [].
  - discriminate.
  - exists el'. split; [ exact Hr | ].
    unfold ContentLayerElement.dispatched. rewrite Hcalls. reflexivity.
Defined.

(** An element of 800 by 600 is connected, disconnected, and disconnected
    once more. *)
Lemma connect_then_disconnect_witness :
  let el := ContentLayerElement.firstConnected
              (ContentLayer.mkCanvas 800 600)
              ContentLayerElement.constructor in
  exists el1 el2,
    ContentLayerElement.connected el = Return tt el1 /\
    ContentLayerElement.disconnected el1 = Return tt el2 /\
    ContentLayerElement.disposed el2 = [0%nat] /\
    ContentLayerElement.resizeListener el2 = false /\
    ContentLayerElement.disconnected el2 = Throw el2.
Proof.
  intros el.
  destruct (connect_then_disconnect (ContentLayer.mkCanvas 800 600) el
              eq_refl)
    as (el1 & el2 & Hc & _ & _ & _ & _ & Hd & Heq & Hthrow).
  exists el1, el2. split; [ exact Hc | ]. split; [ exact Hd | ].
  split; [ now rewrite Heq | ]. split; [ now rewrite Heq | exact Hthrow ].
Defined.
